(** * Metrics collector of api_test_project: a shallow embedding

    Source: [src/api_test_project/metrics/metrics_collector.py], class
    [MetricsCollector], and the [TestResult] model of
    [src/api_test_project/models/response_models.py].

    Modelling conventions.
    - Python [int] is [Z]; Python [float] is an exact rational [Q] (rounding
      of binary64 arithmetic is not modelled).
    - [time.time()] is an explicit argument [now] of every operation that
      reads the clock.
    - [collections.deque(maxlen=n)] is a record that carries its [maxlen].
    - [dict] and [defaultdict(list)] keyed by strings are [gmap string _];
      [set] of strings is [gset string].
    - The re-entrant lock only serialises the methods; every method is one
      atomic state transition here.
    - Code that can raise returns [result]. *)

From Stdlib Require Import ZArith QArith Qround List Lia Lqa.
From stdpp Require Import base option list gmap strings pretty.

Local Open Scope Z_scope.

(** ** Exceptions *)

Inductive exn : Type :=
| ZeroDivisionError
| ValueError.

Inductive result (A : Type) : Type :=
| Ok (a : A)
| Raise (e : exn).
Arguments Ok {A} a.
Arguments Raise {A} e.

#[global] Instance result_ret : MRet result := fun A a => Ok a.

#[global] Instance result_bind : MBind result := fun A B k m =>
  match m with
  | Ok a => k a
  | Raise e => Raise e
  end.

(** ** Python arithmetic on floats *)

(** [a > b] on floats. *)
Definition Qgt_bool (a b : Q) : bool := negb (Qle_bool a b).

(** [a / b]: raises [ZeroDivisionError] when the divisor is zero. *)
Definition truediv (a b : Q) : result Q :=
  if Qeq_bool b 0 then Raise ZeroDivisionError else Ok (a / b)%Q.

(** [sum(xs)]: left to right, starting from 0. *)
Definition py_sum (xs : list Q) : Q := fold_left Qplus xs 0%Q.

(** [min(xs)]: the first smallest element; [ValueError] on an empty
    sequence. *)
Definition py_min (xs : list Q) : result Q :=
  match xs with
  | [] => Raise ValueError
  | x :: rest => Ok (fold_left (fun m y => if Qgt_bool m y then y else m) rest x)
  end.

Definition py_max (xs : list Q) : result Q :=
  match xs with
  | [] => Raise ValueError
  | x :: rest => Ok (fold_left (fun m y => if Qgt_bool y m then y else m) rest x)
  end.

(** [200 <= status_code < 300] *)
Definition is_success_status (status_code : Z) : bool :=
  (200 <=? status_code) && (status_code <? 300).

(** ** collections.deque with a maxlen *)

Record deque (A : Type) : Type := mk_deque {
  maxlen : nat;
  items : list A
}.
Arguments mk_deque {A} maxlen items.
Arguments maxlen {A} d.
Arguments items {A} d.

(** [deque(maxlen=n)] *)
Definition deque_new {A : Type} (n : nat) : deque A := mk_deque n [].

(** [d.append(x)]: push on the right, then drop the leftmost element when
    the length exceeds [maxlen]. *)
Definition deque_append {A : Type} (d : deque A) (x : A) : deque A :=
  let l := items d ++ [x] in
  mk_deque (maxlen d) (if (maxlen d <? length l)%nat then tail l else l).

(** [d.clear()] keeps [maxlen]. *)
Definition deque_clear {A : Type} (d : deque A) : deque A :=
  mk_deque (maxlen d) [].

(** ** numpy statistics used by get_recent_latencies

    numpy is an external library; these follow its documented behaviour on a
    non-empty one-dimensional array (on an empty array numpy answers nan for
    mean, median and percentile, which has no rational counterpart; the
    collector only calls them on a non-empty window). *)

Fixpoint insert_sorted (x : Q) (l : list Q) : list Q :=
  match l with
  | [] => [x]
  | y :: l' => if Qle_bool x y then x :: l else y :: insert_sorted x l'
  end.

Definition np_sort (l : list Q) : list Q := fold_right insert_sorted [] l.

Definition np_mean (l : list Q) : Q :=
  (py_sum l / inject_Z (Z.of_nat (length l)))%Q.

(** [np.percentile(a, q)] with the default linear interpolation: the value at
    the virtual index [(n - 1) * q / 100] of the sorted array. *)
Definition np_percentile (l : list Q) (q : Q) : Q :=
  let sorted := np_sort l in
  let pos := (inject_Z (Z.of_nat (length l) - 1) * q / 100)%Q in
  let lo := Qfloor pos in
  let frac := (pos - inject_Z lo)%Q in
  let a := nth (Z.to_nat lo) sorted 0%Q in
  let b := nth (Z.to_nat (lo + 1)) sorted a in
  (a + (b - a) * frac)%Q.

(** [np.median(a)]: the middle element of the sorted array, or the mean of
    the two middle elements when the length is even. *)
Definition np_median (l : list Q) : Q :=
  let sorted := np_sort l in
  let n := length l in
  if Nat.even n
  then ((nth (n / 2 - 1)%nat sorted 0 + nth (n / 2)%nat sorted 0) / 2)%Q
  else nth (n / 2)%nat sorted 0%Q.

Definition np_min (l : list Q) : result Q := py_min l.
Definition np_max (l : list Q) : result Q := py_max l.

(** ** Records stored by the collector *)

(** [request_data] of [record_request] *)
Record RequestData : Type := mk_request_data {
  rq_timestamp : Q;
  rq_endpoint : string;
  rq_method : string;
  rq_status_code : Z;
  rq_ttft : option Q;
  rq_ttct : Q;
  rq_content_length : Z;
  rq_is_stream : bool;
  rq_request_id : string
}.

(** [stream_data] of [record_stream_completion] *)
Record StreamData : Type := mk_stream_data {
  sd_timestamp : Q;
  sd_endpoint : string;
  sd_status_code : Z;
  sd_ttft : Q;
  sd_ttct : Q;
  sd_token_count : Z;
  sd_tokens_per_second : Q;
  sd_request_id : string
}.

(** [error_data] of [record_error] *)
Record ErrorData : Type := mk_error_data {
  ed_timestamp : Q;
  ed_message : string;
  ed_endpoint : string
}.

(** [_sse_requests] holds both kinds of dictionaries. *)
Inductive SseEntry : Type :=
| SseRequest (d : RequestData)
| SseStream (d : StreamData).

(** The fields of [MetricsCollector] ([results_dir] and [_lock] are left
    out). *)
Record MetricsCollector : Type := mk_collector {
  _requests : list RequestData;
  _stream_metrics : list StreamData;
  _errors : gmap string (list ErrorData);
  _active_requests : Z;
  _request_times : deque Q;
  _recent_ttfts : deque Q;
  _recent_ttcts : deque Q;
  _session_start_time : Q;
  _success_count : Z;
  _failure_count : Z;
  _timeout_count : Z;
  _total_tokens : Z;
  _sse_endpoints : gset string;
  _non_sse_endpoints : gset string;
  _sse_requests : list SseEntry;
  _non_sse_requests : list RequestData;
  _sse_request_ids : gset string;
  _total_request_count : Z
}.

(** [TestResult] *)
Record TestResult : Type := mk_test_result {
  timestamp : Q;
  concurrent_users : Z;
  success_count : Z;
  failure_count : Z;
  total_requests : Z;
  timeout_count : Z;
  avg_ttft : option Q;
  avg_ttct : option Q;
  p50_ttft : option Q;
  p90_ttft : option Q;
  p95_ttft : option Q;
  p50_ttct : option Q;
  p90_ttct : option Q;
  p95_ttct : option Q;
  total_tokens : Z;
  avg_tokens_per_second : Q;
  error_types : gmap string Z
}.

(** [MetricsCollector.__init__] *)
Definition init (now : Q) : MetricsCollector :=
  {| _requests := [];
     _stream_metrics := [];
     _errors := ∅;
     _active_requests := 0;
     _request_times := deque_new 1000;
     _recent_ttfts := deque_new 100;
     _recent_ttcts := deque_new 100;
     _session_start_time := now;
     _success_count := 0;
     _failure_count := 0;
     _timeout_count := 0;
     _total_tokens := 0;
     _sse_endpoints := ∅;
     _non_sse_endpoints := ∅;
     _sse_requests := [];
     _non_sse_requests := [];
     _sse_request_ids := ∅;
     _total_request_count := 0 |}.

(** ** The recording operations *)

(** [str(timestamp)] inside the f-string that builds a request id; Python's
    float formatting is a builtin, not code of the repository, so the model
    is generic in it. *)
Class FloatStr : Type := str_of_float : Q -> string.

Section Collector.

Context `{FloatStr}.

(** [request_id] after the [if request_id is None] default:
    [f"{endpoint}-{timestamp}"]. *)
Definition request_id_or_default (endpoint : string) (now : Q)
    (request_id : option string) : string :=
  match request_id with
  | Some r => r
  | None => String.append endpoint (String.append "-" (str_of_float now))
  end.

(** [MetricsCollector.record_request] *)
Definition record_request (self : MetricsCollector) (now : Q)
    (endpoint method : string) (status_code : Z) (ttft : option Q) (ttct : Q)
    (content_length : Z) (is_stream : bool) (request_id : option string)
    : MetricsCollector :=
  let timestamp := now in
  let request_id := request_id_or_default endpoint timestamp request_id in
  let request_data :=
    mk_request_data timestamp endpoint method status_code ttft ttct
      content_length is_stream request_id in
  {| _requests := _requests self ++ [request_data];
     _stream_metrics := _stream_metrics self;
     _errors := _errors self;
     _active_requests := _active_requests self;
     _request_times := deque_append (_request_times self) timestamp;
     _recent_ttfts :=
       match ttft with
       | Some t => deque_append (_recent_ttfts self) t
       | None => _recent_ttfts self
       end;
     _recent_ttcts := deque_append (_recent_ttcts self) ttct;
     _session_start_time := _session_start_time self;
     _success_count :=
       if is_stream then _success_count self
       else if is_success_status status_code then _success_count self + 1
       else _success_count self;
     _failure_count :=
       if is_stream then _failure_count self
       else if is_success_status status_code then _failure_count self
       else _failure_count self + 1;
     _timeout_count := _timeout_count self;
     _total_tokens := _total_tokens self;
     _sse_endpoints :=
       if is_stream then {[endpoint]} ∪ _sse_endpoints self
       else _sse_endpoints self;
     _non_sse_endpoints :=
       if is_stream then _non_sse_endpoints self
       else {[endpoint]} ∪ _non_sse_endpoints self;
     _sse_requests :=
       if is_stream then _sse_requests self ++ [SseRequest request_data]
       else _sse_requests self;
     _non_sse_requests :=
       if is_stream then _non_sse_requests self
       else _non_sse_requests self ++ [request_data];
     _sse_request_ids := _sse_request_ids self;
     _total_request_count := _total_request_count self + 1 |}.

(** [MetricsCollector.record_stream_completion].  The division is guarded by
    [ttct > 0], so it cannot raise. *)
Definition record_stream_completion (self : MetricsCollector) (now : Q)
    (endpoint : string) (status_code : Z) (ttft ttct : Q) (token_count : Z)
    (request_id : option string) : MetricsCollector :=
  let timestamp := now in
  let request_id := request_id_or_default endpoint timestamp request_id in
  let tokens_per_second :=
    if Qgt_bool ttct 0 then (inject_Z token_count / ttct)%Q else 0%Q in
  let stream_data :=
    mk_stream_data timestamp endpoint status_code ttft ttct token_count
      tokens_per_second request_id in
  let unseen := bool_decide (request_id ∉ _sse_request_ids self) in
  {| _requests := _requests self;
     _stream_metrics := _stream_metrics self ++ [stream_data];
     _errors := _errors self;
     _active_requests := _active_requests self;
     _request_times := _request_times self;
     _recent_ttfts := deque_append (_recent_ttfts self) ttft;
     _recent_ttcts := deque_append (_recent_ttcts self) ttct;
     _session_start_time := _session_start_time self;
     _success_count :=
       if unseen && is_success_status status_code
       then _success_count self + 1 else _success_count self;
     _failure_count :=
       if unseen && negb (is_success_status status_code)
       then _failure_count self + 1 else _failure_count self;
     _timeout_count := _timeout_count self;
     _total_tokens := _total_tokens self + token_count;
     _sse_endpoints := {[endpoint]} ∪ _sse_endpoints self;
     _non_sse_endpoints := _non_sse_endpoints self;
     _sse_requests := _sse_requests self ++ [SseStream stream_data];
     _non_sse_requests := _non_sse_requests self;
     _sse_request_ids :=
       if unseen then {[request_id]} ∪ _sse_request_ids self
       else _sse_request_ids self;
     _total_request_count := _total_request_count self |}.

End Collector.

(** [self._errors[error_type].append(error_data)] on a [defaultdict(list)] *)
Definition errors_append (errors : gmap string (list ErrorData))
    (error_type : string) (error_data : ErrorData)
    : gmap string (list ErrorData) :=
  <[error_type := default [] (errors !! error_type) ++ [error_data]]> errors.

(** [MetricsCollector.record_error] *)
Definition record_error (self : MetricsCollector) (now : Q)
    (error_type error_message endpoint : string) : MetricsCollector :=
  let error_data := mk_error_data now error_message endpoint in
  {| _requests := _requests self;
     _stream_metrics := _stream_metrics self;
     _errors := errors_append (_errors self) error_type error_data;
     _active_requests := _active_requests self;
     _request_times := _request_times self;
     _recent_ttfts := _recent_ttfts self;
     _recent_ttcts := _recent_ttcts self;
     _session_start_time := _session_start_time self;
     _success_count := _success_count self;
     _failure_count := _failure_count self + 1;
     _timeout_count :=
       if String.eqb error_type "timeout" then _timeout_count self + 1
       else _timeout_count self;
     _total_tokens := _total_tokens self;
     _sse_endpoints := _sse_endpoints self;
     _non_sse_endpoints := _non_sse_endpoints self;
     _sse_requests := _sse_requests self;
     _non_sse_requests := _non_sse_requests self;
     _sse_request_ids := _sse_request_ids self;
     _total_request_count := _total_request_count self |}.

(** [MetricsCollector.reset] *)
Definition reset (self : MetricsCollector) (now : Q) : MetricsCollector :=
  {| _requests := [];
     _stream_metrics := [];
     _errors := ∅;
     _active_requests := _active_requests self;
     _request_times := deque_clear (_request_times self);
     _recent_ttfts := deque_clear (_recent_ttfts self);
     _recent_ttcts := deque_clear (_recent_ttcts self);
     _session_start_time := now;
     _success_count := 0;
     _failure_count := 0;
     _timeout_count := 0;
     _total_tokens := 0;
     _sse_endpoints := ∅;
     _non_sse_endpoints := ∅;
     _sse_requests := [];
     _non_sse_requests := [];
     _sse_request_ids := ∅;
     _total_request_count := 0 |}.

(** ** The read-only operations *)

(** [MetricsCollector.get_success_rate] *)
Definition get_success_rate (self : MetricsCollector) : result Q :=
  let total := _success_count self + _failure_count self in
  if total =? 0 then Ok 0%Q
  else truediv (inject_Z (_success_count self)) (inject_Z total).

(** [MetricsCollector.get_current_rps] *)
Definition get_current_rps (self : MetricsCollector) (now : Q) : result Q :=
  if (length (items (_request_times self)) <? 2)%nat then Ok 0%Q
  else
    let recent_requests :=
      filter (fun t => Qle_bool (now - t) 60 = true) (items (_request_times self)) in
    match recent_requests with
    | [] => Ok 0%Q
    | _ =>
      oldest ← py_min recent_requests;
      let time_span := (now - oldest)%Q in
      if Qle_bool time_span 0 then Ok 0%Q
      else truediv (inject_Z (Z.of_nat (length recent_requests))) time_span
    end.

(** The block that [get_recent_latencies] runs once on [_recent_ttfts] and
    once on [_recent_ttcts]: an empty dictionary for an empty window, the six
    statistics otherwise. *)
Definition latency_stats (window : deque Q) : result (gmap string Q) :=
  match items window with
  | [] => Ok ∅
  | _ =>
    let arr := items window in
    lo ← np_min arr;
    hi ← np_max arr;
    Ok (<["avg" := np_mean arr]>
        (<["median" := np_median arr]>
        (<["p90" := np_percentile arr 90]>
        (<["p95" := np_percentile arr 95]>
        (<["min" := lo]>
        (<["max" := hi]> ∅))))))
  end.

(** [MetricsCollector.get_recent_latencies] *)
Definition get_recent_latencies (self : MetricsCollector)
    : result (gmap string Q * gmap string Q) :=
  ttft_stats ← latency_stats (_recent_ttfts self);
  ttct_stats ← latency_stats (_recent_ttcts self);
  Ok (ttft_stats, ttct_stats).

(** [MetricsCollector.get_error_summary] *)
Definition get_error_summary (self : MetricsCollector) : gmap string Z :=
  (fun errors => Z.of_nat (length errors)) <$> _errors self.

(** [MetricsCollector.get_session_metrics] *)
Definition get_session_metrics (self : MetricsCollector) (now : Q)
    (concurrent_users : Z) : result TestResult :=
  '(ttft_stats, ttct_stats) ← get_recent_latencies self;
  let error_summary := get_error_summary self in
  let total_ttct :=
    match items (_recent_ttcts self) with
    | [] => 0%Q
    | _ => py_sum (items (_recent_ttcts self))
    end in
  avg_tokens_per_second ←
    (if Qgt_bool total_ttct 0
     then truediv (inject_Z (_total_tokens self)) total_ttct
     else Ok 0%Q);
  Ok {| timestamp := now;
        concurrent_users := concurrent_users;
        success_count := _success_count self;
        failure_count := _failure_count self;
        total_requests := _total_request_count self;
        timeout_count := _timeout_count self;
        avg_ttft := ttft_stats !! "avg";
        avg_ttct := ttct_stats !! "avg";
        p50_ttft := ttft_stats !! "median";
        p90_ttft := ttft_stats !! "p90";
        p95_ttft := ttft_stats !! "p95";
        p50_ttct := ttct_stats !! "median";
        p90_ttct := ttct_stats !! "p90";
        p95_ttct := ttct_stats !! "p95";
        total_tokens := _total_tokens self;
        avg_tokens_per_second := avg_tokens_per_second;
        error_types := error_summary |}.

(** ** Traces of operations *)

Inductive Op : Type :=
| RecordRequest (now : Q) (endpoint method : string) (status_code : Z)
    (ttft : option Q) (ttct : Q) (content_length : Z) (is_stream : bool)
    (request_id : option string)
| RecordStreamCompletion (now : Q) (endpoint : string) (status_code : Z)
    (ttft ttct : Q) (token_count : Z) (request_id : option string)
| RecordError (now : Q) (error_type error_message endpoint : string)
| Reset (now : Q).

Section Traces.

Context `{FloatStr}.

Definition step (self : MetricsCollector) (op : Op) : MetricsCollector :=
  match op with
  | RecordRequest now endpoint method status_code ttft ttct content_length
      is_stream request_id =>
    record_request self now endpoint method status_code ttft ttct
      content_length is_stream request_id
  | RecordStreamCompletion now endpoint status_code ttft ttct token_count
      request_id =>
    record_stream_completion self now endpoint status_code ttft
      ttct token_count request_id
  | RecordError now error_type error_message endpoint =>
    record_error self now error_type error_message endpoint
  | Reset now => reset self now
  end.

Definition run (self : MetricsCollector) (ops : list Op) : MetricsCollector :=
  fold_left step ops self.

(** States a collector can be in: created at some time, then any operations. *)
Definition reachable (s : MetricsCollector) : Prop :=
  exists (t0 : Q) (ops : list Op), s = run (init t0) ops.

End Traces.

(** A rendering of float timestamps for the concrete scenarios: exact on
    integral values such as [100.0]. *)
Definition str_integral : FloatStr :=
  fun q => String.append (pretty (Qfloor q)) ".0".

(** ** Observations on collectors and traces *)

(** Appending [samples] one by one, as the collector does over time. *)
Definition deque_fill {A : Type} (d : deque A) (samples : list A) : deque A :=
  fold_left deque_append samples d.

(** What every reachable collector satisfies: the three windows keep their
    capacity and stay within it, and the counters are not negative. *)
Record collector_inv (s : MetricsCollector) : Prop := mk_collector_inv {
  inv_times_cap : maxlen (_request_times s) = 1000%nat;
  inv_ttfts_cap : maxlen (_recent_ttfts s) = 100%nat;
  inv_ttcts_cap : maxlen (_recent_ttcts s) = 100%nat;
  inv_times_len : (length (items (_request_times s)) <= 1000)%nat;
  inv_ttfts_len : (length (items (_recent_ttfts s)) <= 100)%nat;
  inv_ttcts_len : (length (items (_recent_ttcts s)) <= 100)%nat;
  inv_success : 0 <= _success_count s;
  inv_failure : 0 <= _failure_count s;
  inv_timeout : 0 <= _timeout_count s;
  inv_total : 0 <= _total_request_count s
}.

(** [lo] is a smallest element of [xs]. *)
Definition is_minimum (xs : list Q) (lo : Q) : Prop :=
  In lo xs /\ forall y : Q, In y xs -> (lo <= y)%Q.

(** [hi] is a largest element of [xs]. *)
Definition is_maximum (xs : list Q) (hi : Q) : Prop :=
  In hi xs /\ forall y : Q, In y xs -> (y <= hi)%Q.

(** The statistics table of a non-empty window: exactly the six keys, each
    holding the named statistic of the samples. *)
Definition stats_of (arr : list Q) (stats : gmap string Q) : Prop :=
  exists lo hi : Q,
    is_minimum arr lo /\ is_maximum arr hi /\
    stats = <["avg" := np_mean arr]>
            (<["median" := np_median arr]>
            (<["p90" := np_percentile arr 90]>
            (<["p95" := np_percentile arr 95]>
            (<["min" := lo]>
            (<["max" := hi]> ∅))))).

Definition is_record_request (op : Op) : bool :=
  match op with
  | RecordRequest _ _ _ _ _ _ _ _ _ => true
  | _ => false
  end.

Definition is_reset (op : Op) : bool :=
  match op with
  | Reset _ => true
  | _ => false
  end.

(** A [record_request] call with [is_stream=False]. *)
Definition is_non_stream_request (op : Op) : bool :=
  match op with
  | RecordRequest _ _ _ _ _ _ _ is_stream _ => negb is_stream
  | _ => false
  end.

(** A non-stream [record_request] call whose status is in [200,300). *)
Definition is_non_stream_success (op : Op) : bool :=
  match op with
  | RecordRequest _ _ _ status_code _ _ _ is_stream _ =>
    negb is_stream && is_success_status status_code
  | _ => false
  end.

(** A non-stream [record_request] call whose status is outside [200,300). *)
Definition is_non_stream_failure (op : Op) : bool :=
  match op with
  | RecordRequest _ _ _ status_code _ _ _ is_stream _ =>
    negb is_stream && negb (is_success_status status_code)
  | _ => false
  end.

(** How many operations of the trace satisfy [p]. *)
Fixpoint count_ops (p : Op -> bool) (ops : list Op) : Z :=
  match ops with
  | [] => 0
  | op :: ops' => (if p op then 1 else 0) + count_ops p ops'
  end.

(** The operations made since the last [reset] (all of them when the trace
    has none). *)
Definition current_session (ops : list Op) : list Op :=
  fold_left (fun acc op => if is_reset op then [] else acc ++ [op]) ops [].

(** The timestamps [t] of [times] with [now - t <= 60], in order. *)
Definition trailing_minute (now : Q) (times : list Q) : list Q :=
  filter (fun t => Qle_bool (now - t) 60 = true) times.

Section Observations.

Context `{FloatStr}.

(** The request id under which [record_stream_completion] looks a call up in
    the seen-set (the synthetic id when none is passed). *)
Definition completion_id (op : Op) : option string :=
  match op with
  | RecordStreamCompletion now endpoint _ _ _ _ request_id =>
    Some (request_id_or_default endpoint now request_id)
  | _ => None
  end.

(** The request id stored with the record of a call, for both recording
    operations that take one. *)
Definition carried_id (op : Op) : option string :=
  match op with
  | RecordRequest now endpoint _ _ _ _ _ _ request_id =>
    Some (request_id_or_default endpoint now request_id)
  | RecordStreamCompletion now endpoint _ _ _ _ request_id =>
    Some (request_id_or_default endpoint now request_id)
  | _ => None
  end.

(** [op] is a [record_stream_completion] call for request id [r]. *)
Definition completes (r : string) (op : Op) : bool :=
  bool_decide (completion_id op = Some r).

(** [op] is a [record_request] or [record_stream_completion] call carrying
    request id [r]. *)
Definition carries (r : string) (op : Op) : bool :=
  bool_decide (carried_id op = Some r).

Definition op_status_code (op : Op) : Z :=
  match op with
  | RecordRequest _ _ _ status_code _ _ _ _ _ => status_code
  | RecordStreamCompletion _ _ status_code _ _ _ _ => status_code
  | _ => 0
  end.

(** Tokens reported by a call ([record_stream_completion] only). *)
Definition op_token_count (op : Op) : Z :=
  match op with
  | RecordStreamCompletion _ _ _ _ _ token_count _ => token_count
  | _ => 0
  end.

Fixpoint sum_token_counts (ops : list Op) : Z :=
  match ops with
  | [] => 0
  | op :: ops' => op_token_count op + sum_token_counts ops'
  end.

(** What the calls selected by [p] added to [_success_count] and to
    [_failure_count] while the trace ran from [s]: the sum, over those calls,
    of the change each one made. *)
Fixpoint tallied (p : Op -> bool) (s : MetricsCollector) (ops : list Op)
    : Z * Z :=
  match ops with
  | [] => (0, 0)
  | op :: ops' =>
    let s' := step s op in
    let rest := tallied p s' ops' in
    if p op
    then (fst rest + (_success_count s' - _success_count s),
          snd rest + (_failure_count s' - _failure_count s))
    else rest
  end.

(** Status code of the first completion reported for [r], if any. *)
Fixpoint first_completion_status (r : string) (ops : list Op) : option Z :=
  match ops with
  | [] => None
  | op :: ops' =>
    if completes r op then Some (op_status_code op)
    else first_completion_status r ops'
  end.

End Observations.

(** ** Concrete collectors and traces *)

(** One successful stream completion and one recorded error. *)
Definition scenario_mixed : MetricsCollector :=
  @run str_integral (init 0)
    [RecordStreamCompletion 5 "/chat" 200 (1 # 2) 2 40 (Some "a1");
     RecordError 6 "network" "connection refused" "/chat"].

(** Two non-stream calls (one of them failed) around a stream call. *)
Definition requests_mixed : list Op :=
  [RecordRequest 1 "/books" "GET" 201 None (3 # 10) 120 false (Some "q1");
   RecordRequest 2 "/chat" "POST" 200 (Some (1 # 10)) 2 0 true (Some "q2");
   RecordRequest 3 "/books" "GET" 404 None (2 # 10) 15 false (Some "q3")].

(** A stream completion never preceded by [record_request], then a reset,
    then one request. *)
Definition session_with_reset : list Op :=
  [RecordStreamCompletion 1 "/chat" 200 (1 # 10) 2 30 (Some "s1");
   RecordRequest 2 "/books" "GET" 200 None (1 # 5) 64 false None;
   Reset 3;
   RecordRequest 4 "/books" "GET" 200 None (1 # 5) 64 false None].

(** Three completions reported for "r7" (all successful) interleaved with a
    completion for another id and a request carrying "r7". *)
Definition repeated_completions : list Op :=
  [RecordRequest 1 "/chat" "POST" 200 (Some (1 # 10)) 2 0 true (Some "r7");
   RecordStreamCompletion 3 "/chat" 200 (1 # 10) 2 30 (Some "r7");
   RecordStreamCompletion 4 "/chat" 500 (1 # 10) 1 0 (Some "r8");
   RecordStreamCompletion 5 "/chat" 200 (1 # 10) 2 30 (Some "r7");
   RecordError 6 "timeout" "late" "/chat";
   RecordStreamCompletion 7 "/chat" 204 (1 # 10) 2 31 (Some "r7")].

(** The same non-stream request recorded twice under one request id. *)
Definition repeated_request : list Op :=
  [RecordRequest 1 "/books" "GET" 200 None (3 # 10) 120 false (Some "r");
   RecordRequest 2 "/books" "GET" 200 None (3 # 10) 120 false (Some "r")].

(** Requests at times 0 and 100, observed at time 110: only the second one
    lies in the trailing 60 seconds. *)
Definition sparse_requests : MetricsCollector :=
  @run str_integral (init 0)
    [RecordRequest 0 "/books" "GET" 200 None (1 # 5) 64 false (Some "a");
     RecordRequest 100 "/books" "GET" 200 None (1 # 5) 64 false (Some "b")].

(** ** The snapshot model and the summary of a basic test run *)

(** [TestResult.success_rate], the property of the model class in
    [models/response_models.py]. *)
Definition success_rate (self : TestResult) : result Q :=
  if success_count self + failure_count self =? 0 then Ok 0%Q
  else truediv (inject_Z (success_count self))
         (inject_Z (success_count self + failure_count self)).

(** The end of [run_basic_test] in [main.py]: the snapshot is taken and the
    summary line is computed from it.  The result holds the success
    percentage and the two averages that the line prints ([None] where it
    prints "N/A"); the number formatting is left out. *)
Definition run_basic_test_summary (metrics_collector : MetricsCollector)
    (now : Q) (concurrent_users : Z) : result (Q * option Q * option Q) :=
  summary ← get_session_metrics metrics_collector now concurrent_users;
  let avg_ttft_str := avg_ttft summary in
  let avg_ttct_str := avg_ttct summary in
  ratio ← truediv (inject_Z (success_count summary))
            (inject_Z (success_count summary + failure_count summary));
  Ok ((ratio * 100)%Q, avg_ttft_str, avg_ttct_str).

(** ** The values behind the overall charts *)

(** [max(1, d)]: the second argument only when it is greater. *)
Definition py_max_1 (d : Q) : Q := if Qgt_bool d 1 then d else 1%Q.

(** The values [_generate_overall_visualizations] computes: [None] when it
    returns early because [_requests] is empty, and otherwise the two values
    of the request-type pie chart ([sse_count], [non_sse_count]) and the six
    values of the summary bar chart.  Drawing and writing the charts are left
    out. *)
Definition overall_summary_values (self : MetricsCollector) (now : Q)
    : result (option (Z * Z * list Q)) :=
  match _requests self with
  | [] => Ok None
  | _ =>
    let sse_count :=
      Z.of_nat
        (length (filter (fun req => rq_is_stream req = true) (_requests self))) in
    let non_sse_count := Z.of_nat (length (_requests self)) - sse_count in
    '(ttft_stats, ttct_stats) ← get_recent_latencies self;
    let test_duration := (now - _session_start_time self)%Q in
    rate ← get_success_rate self;
    let success_rate := (rate * 100)%Q in
    tps ← truediv (inject_Z (_total_tokens self)) (py_max_1 test_duration);
    Ok (Some (sse_count, non_sse_count,
              [inject_Z (_total_request_count self);
               success_rate;
               test_duration;
               tps;
               default 0%Q (ttft_stats !! "avg");
               default 0%Q (ttct_stats !! "avg")]))
  end.

(** ** Observations on the stored history *)

(** The [request_data] dictionaries among the entries of [_sse_requests]. *)
Definition sse_request (e : SseEntry) : option RequestData :=
  match e with
  | SseRequest d => Some d
  | SseStream _ => None
  end.

(** The [stream_data] dictionaries among the entries of [_sse_requests]. *)
Definition sse_stream (e : SseEntry) : option StreamData :=
  match e with
  | SseRequest _ => None
  | SseStream d => Some d
  end.

(** The ["endpoint"] entry, which both kinds of dictionaries have. *)
Definition sse_endpoint (e : SseEntry) : string :=
  match e with
  | SseRequest d => rq_endpoint d
  | SseStream d => sd_endpoint d
  end.

Definition sum_Z (l : list Z) : Z := fold_right Z.add 0 l.

(** [sum(get_error_summary().values())]: how many errors are stored. *)
Definition error_total (s : MetricsCollector) : Z :=
  map_fold (fun (_ : string) (n acc : Z) => n + acc) 0 (get_error_summary s).

(** The samples an operation pushes on the recent TTCT window. *)
Definition op_ttct_samples (op : Op) : list Q :=
  match op with
  | RecordRequest _ _ _ _ _ ttct _ _ _ => [ttct]
  | RecordStreamCompletion _ _ _ _ ttct _ _ => [ttct]
  | _ => []
  end.

(** The samples an operation pushes on the recent TTFT window. *)
Definition op_ttft_samples (op : Op) : list Q :=
  match op with
  | RecordRequest _ _ _ _ (Some ttft) _ _ _ _ => [ttft]
  | RecordStreamCompletion _ _ _ ttft _ _ _ => [ttft]
  | _ => []
  end.

(** The last [n] elements of [l] (all of [l] when it is shorter). *)
Definition last_n {A : Type} (n : nat) (l : list A) : list A :=
  drop (length l - n) l.

(** What the stored history of every reachable collector satisfies. *)
Record history_inv (s : MetricsCollector) : Prop := mk_history_inv {
  hist_active : _active_requests s = 0;
  hist_total : _total_request_count s = Z.of_nat (length (_requests s));
  hist_non_sse :
    _non_sse_requests s
    = filter (fun d => rq_is_stream d = false) (_requests s);
  hist_sse_requests :
    omap sse_request (_sse_requests s)
    = filter (fun d => rq_is_stream d = true) (_requests s);
  hist_sse_streams : omap sse_stream (_sse_requests s) = _stream_metrics s;
  hist_non_sse_endpoints :
    _non_sse_endpoints s = list_to_set (rq_endpoint <$> _non_sse_requests s);
  hist_sse_endpoints :
    _sse_endpoints s = list_to_set (sse_endpoint <$> _sse_requests s);
  hist_tokens :
    _total_tokens s = sum_Z (sd_token_count <$> _stream_metrics s);
  hist_seen :
    _sse_request_ids s = list_to_set (sd_request_id <$> _stream_metrics s);
  hist_times :
    items (_request_times s) = last_n 1000 (rq_timestamp <$> _requests s);
  hist_tally :
    _success_count s + _failure_count s
    = Z.of_nat (length (_non_sse_requests s))
      + Z.of_nat (size (_sse_request_ids s)) + error_total s;
  hist_timeout :
    _timeout_count s = default 0 (get_error_summary s !! "timeout");
  hist_errors : forall (k : string) (l : list ErrorData),
    _errors s !! k = Some l -> l <> []
}.

(** What one operation other than [reset] can only increase. *)
Definition grows (s s' : MetricsCollector) : Prop :=
  _success_count s <= _success_count s' /\
  _failure_count s <= _failure_count s' /\
  _timeout_count s <= _timeout_count s' /\
  _total_request_count s <= _total_request_count s' /\
  _sse_request_ids s ⊆ _sse_request_ids s' /\
  (forall k : string,
     default 0 (get_error_summary s !! k)
     <= default 0 (get_error_summary s' !! k)).

(** The clock reading at which the current session started: that of the last
    [reset], or the creation time [t0] when the trace has none. *)
Definition session_start (t0 : Q) (ops : list Op) : Q :=
  fold_left (fun t op => match op with Reset now => now | _ => t end) ops t0.

(** A session that ends with a reset. *)
Definition session_ended : list Op :=
  [RecordRequest 1 "/books" "GET" 200 None (3 # 10) 120 false None;
   RecordStreamCompletion 2 "/chat" 500 (1 # 10) 1 7 None;
   RecordError 3 "timeout" "late" "/chat";
   Reset 4].

(** A busy session: requests of both kinds, completions with and without a
    request id (two of them colliding on the synthetic id), and errors. *)
Definition session_busy : list Op :=
  [RecordRequest 1 "/books" "GET" 200 None (3 # 10) 120 false None;
   RecordRequest 2 "/chat" "POST" 200 (Some (1 # 10)) 2 0 true (Some "c1");
   RecordStreamCompletion 4 "/chat" 200 (1 # 10) 2 30 (Some "c1");
   RecordStreamCompletion 5 "/chat" 200 (2 # 10) 3 12 None;
   RecordStreamCompletion 5 "/chat" 503 (2 # 10) 3 8 None;
   RecordRequest 6 "/books" "GET" 404 None (1 # 10) 15 false None;
   RecordError 7 "timeout" "late" "/chat";
   RecordError 8 "network" "refused" "/books";
   RecordError 9 "timeout" "late again" "/chat"].

(** The collector after the busy session. *)
Definition collector_busy : MetricsCollector :=
  @run str_integral (init 0) session_busy.

(** * Properties *)

(** ** Helper facts on floats and division *)

Lemma Qgt_bool_true (a b : Q) : Qgt_bool a b = true <-> (b < a)%Q.
Proof.
  unfold Qgt_bool. rewrite negb_true_iff. split.
  - intros H. apply Qnot_le_lt. intros Hle.
    apply Qle_bool_iff in Hle. congruence.
  - intros H. destruct (Qle_bool a b) eqn:E; [|reflexivity].
    apply Qle_bool_iff in E. exfalso. exact (Qlt_not_le _ _ H E).
Qed.

Lemma Qgt_bool_false (a b : Q) : Qgt_bool a b = false <-> (a <= b)%Q.
Proof.
  unfold Qgt_bool. rewrite negb_false_iff. apply Qle_bool_iff.
Qed.

Lemma truediv_nonzero (a b : Q) : ~ (b == 0)%Q -> truediv a b = Ok (a / b)%Q.
Proof.
  intros H. unfold truediv. destruct (Qeq_bool b 0) eqn:E; [|reflexivity].
  apply Qeq_bool_iff in E. contradiction.
Qed.

Lemma inject_Z_nonzero (z : Z) : z <> 0 -> ~ (inject_Z z == 0)%Q.
Proof.
  intros Hz H. unfold Qeq, inject_Z in H. simpl in H. lia.
Qed.

(** ** The bounded deque *)

Section Deque.

Context {A : Type}.

Lemma deque_append_maxlen (d : deque A) (x : A) :
  maxlen (deque_append d x) = maxlen d.
Proof. reflexivity. Qed.

Lemma deque_fill_maxlen (samples : list A) (d : deque A) :
  maxlen (deque_fill d samples) = maxlen d.
Proof.
  revert d. induction samples as [|x l IH]; intros d; [reflexivity|].
  unfold deque_fill in *. simpl. rewrite IH. reflexivity.
Qed.

Lemma deque_fill_snoc (d : deque A) (samples : list A) (x : A) :
  deque_fill d (samples ++ [x]) = deque_append (deque_fill d samples) x.
Proof. unfold deque_fill. rewrite fold_left_app. reflexivity. Qed.

(** Appending keeps a deque within its capacity. *)
Lemma deque_append_bounded (d : deque A) (x : A) :
  (length (items d) <= maxlen d)%nat ->
  (length (items (deque_append d x)) <= maxlen d)%nat.
Proof.
  intros Hd. unfold deque_append. simpl.
  destruct (Nat.ltb_spec (maxlen d) (length (items d ++ [x]))) as [Hlt|Hge].
  - rewrite length_app in Hlt. simpl in Hlt.
    destruct (items d) as [|y l]; simpl in *; [lia|].
    rewrite length_app. simpl. lia.
  - exact Hge.
Qed.

(** After any number of appends to a fresh deque, the content is the suffix
    of the inserted samples that fits the capacity. *)
Lemma deque_fill_new (c : nat) (samples : list A) :
  items (deque_fill (deque_new c) samples) = drop (length samples - c) samples.
Proof.
  induction samples as [|x l IH] using rev_ind; [reflexivity|].
  rewrite deque_fill_snoc. unfold deque_append.
  rewrite deque_fill_maxlen. simpl maxlen. simpl items. rewrite IH.
  rewrite !length_app, length_drop. simpl length.
  destruct (Nat.ltb_spec c (length l - (length l - c) + 1)) as [Hlt|Hge].
  - assert (Hc : (c <= length l)%nat) by lia.
    replace (length l + 1 - c)%nat with (S (length l - c)) by lia.
    destruct (decide (c = 0%nat)) as [->|Hc0].
    + rewrite Nat.sub_0_r. rewrite drop_all. simpl.
      rewrite drop_ge by (rewrite length_app; simpl; lia). reflexivity.
    + rewrite (drop_app_le l [x] (S (length l - c))) by lia.
      replace (S (length l - c)) with (length l - c + 1)%nat by lia.
      rewrite <- (drop_drop l 1 (length l - c)).
      destruct (drop (length l - c) l) as [|y l'] eqn:E.
      * apply (f_equal length) in E. rewrite length_drop in E. simpl in E. lia.
      * reflexivity.
  - replace (length l - c)%nat with 0%nat by lia.
    replace (length l + 1 - c)%nat with 0%nat by lia. reflexivity.
Qed.

End Deque.

(** ** Invariants of reachable collectors *)

Ltac bounded_append :=
  match goal with
  | H : maxlen ?d = ?c |- (length (items (deque_append ?d _)) <= ?c)%nat =>
    rewrite <- H; apply deque_append_bounded; rewrite H; assumption
  end.

Lemma init_inv (t0 : Q) : collector_inv (init t0).
Proof.
  split; try reflexivity; cbn [init _request_times _recent_ttfts _recent_ttcts
    deque_new items length _success_count _failure_count _timeout_count
    _total_request_count]; lia.
Qed.

Section TraceFacts.

Context `{FloatStr}.

Lemma run_nil (s : MetricsCollector) : run s [] = s.
Proof. reflexivity. Qed.

Lemma run_cons (s : MetricsCollector) (op : Op) (ops : list Op) :
  run s (op :: ops) = run (step s op) ops.
Proof. reflexivity. Qed.

Lemma run_app (s : MetricsCollector) (ops1 ops2 : list Op) :
  run s (ops1 ++ ops2) = run (run s ops1) ops2.
Proof. unfold run. apply fold_left_app. Qed.

Lemma run_snoc (s : MetricsCollector) (ops : list Op) (op : Op) :
  run s (ops ++ [op]) = step (run s ops) op.
Proof. rewrite run_app. reflexivity. Qed.

Lemma step_inv (s : MetricsCollector) (op : Op) :
  collector_inv s -> collector_inv (step s op).
Proof.
  intros [Hc1 Hc2 Hc3 Hl1 Hl2 Hl3 Hs Hf Ht Hn].
  destruct op as [now ep me sc ttft ttct cl st rid
                 |now ep sc ttft ttct tc rid
                 |now et em ep
                 |now].
  - unfold step, record_request.
    split;
      cbn [_request_times _recent_ttfts _recent_ttcts _success_count
           _failure_count _timeout_count _total_request_count];
      try (destruct ttft); rewrite ?deque_append_maxlen;
      try assumption; try bounded_append;
      try (destruct st, (is_success_status sc); lia); try lia.
  - unfold step, record_stream_completion.
    split;
      cbn [_request_times _recent_ttfts _recent_ttcts _success_count
           _failure_count _timeout_count _total_request_count];
      rewrite ?deque_append_maxlen;
      try assumption; try bounded_append;
      try (destruct (bool_decide _), (is_success_status sc); simpl; lia).
  - unfold step, record_error.
    split;
      cbn [_request_times _recent_ttfts _recent_ttcts _success_count
           _failure_count _timeout_count _total_request_count];
      try assumption; try (destruct (String.eqb et "timeout")); lia.
  - unfold step, reset.
    split;
      cbn [_request_times _recent_ttfts _recent_ttcts _success_count
           _failure_count _timeout_count _total_request_count
           deque_clear maxlen items length];
      try assumption; lia.
Qed.

Lemma run_inv (ops : list Op) (s : MetricsCollector) :
  collector_inv s -> collector_inv (run s ops).
Proof.
  revert s. induction ops as [|op ops IH]; intros s Hs; [exact Hs|].
  rewrite run_cons. apply IH, step_inv, Hs.
Qed.

Lemma reachable_inv (s : MetricsCollector) : reachable s -> collector_inv s.
Proof.
  intros (t0 & ops & ->). apply run_inv, init_inv.
Qed.

Lemma reachable_init (t0 : Q) : reachable (init t0).
Proof. exists t0, []. reflexivity. Qed.

Lemma reachable_run (s : MetricsCollector) (ops : list Op) :
  reachable s -> reachable (run s ops).
Proof.
  intros (t0 & ops0 & ->). exists t0, (ops0 ++ ops). symmetry. apply run_app.
Qed.

End TraceFacts.

(** ** Recent-window buffers *)

(** C5: a recent-window buffer never holds more than its capacity.  After
    inserting [c + k] samples into a fresh buffer of capacity [c], exactly [c]
    samples remain, and they are the inserted samples number [k + 1] to
    [c + k] in insertion order (the oldest [k] were evicted).  In every
    reachable collector the request-timestamp window has capacity 1000 and the
    TTFT and TTCT windows have capacity 100, and none holds more than that. *)
Theorem recent_window_fifo `{FloatStr} :
  (forall (A : Type) (c k : nat) (samples : list A),
     length samples = (c + k)%nat ->
     let d := deque_fill (deque_new c) samples in
     length (items d) = c /\
     items d = drop k samples /\
     forall i : nat, (i < c)%nat -> items d !! i = samples !! (k + i)%nat)
  /\
  (forall s : MetricsCollector, reachable s ->
     (maxlen (_request_times s) = 1000%nat /\
      (length (items (_request_times s)) <= 1000)%nat) /\
     (maxlen (_recent_ttfts s) = 100%nat /\
      (length (items (_recent_ttfts s)) <= 100)%nat) /\
     (maxlen (_recent_ttcts s) = 100%nat /\
      (length (items (_recent_ttcts s)) <= 100)%nat)).
Proof.
  split.
  - intros A c k samples Hlen d.
    assert (Hd : items d = drop k samples).
    { unfold d. rewrite deque_fill_new. f_equal. lia. }
    split; [|split].
    + rewrite Hd, length_drop. lia.
    + exact Hd.
    + intros i _. rewrite Hd. apply lookup_drop.
  - intros s Hs. destruct (reachable_inv s Hs). tauto.
Qed.

Lemma recent_window_fifo_witness :
  items (deque_fill (deque_new 3) [10; 20; 30; 40; 50]) = [30; 40; 50] /\
  (length (items (_recent_ttcts scenario_mixed)) <= 100)%nat.
Proof.
  destruct (@recent_window_fifo str_integral) as [Hfifo Hcap].
  split.
  - exact (proj1 (proj2 (Hfifo Z 3%nat 2%nat [10; 20; 30; 40; 50] eq_refl))).
  - apply (Hcap scenario_mixed).
    apply reachable_run, reachable_init.
Defined.

(** ** Success rate *)

(** C4: in every reachable collector the tallies are not negative, so
    [success_count + failure_count] is either 0 or positive.
    [get_success_rate] returns 0.0 in the first case (in particular on a new
    collector) and [success_count / (success_count + failure_count)] in the
    second; it returns a value in both, so it raises nothing. *)
Theorem success_rate_spec `{FloatStr} (s : MetricsCollector) :
  reachable s ->
  let total := _success_count s + _failure_count s in
  0 <= total /\
  (total = 0 -> get_success_rate s = Ok 0%Q) /\
  (0 < total ->
   get_success_rate s = Ok (inject_Z (_success_count s) / inject_Z total)%Q) /\
  (exists rate : Q, get_success_rate s = Ok rate) /\
  (forall t0 : Q, get_success_rate (init t0) = Ok 0%Q).
Proof.
  intros Hs total.
  destruct (reachable_inv s Hs) as [_ _ _ _ _ _ Hsucc Hfail _ _].
  assert (Hzero : total = 0 -> get_success_rate s = Ok 0%Q).
  { intros Ht. unfold get_success_rate. fold total. rewrite Ht. reflexivity. }
  assert (Hpos : 0 < total ->
    get_success_rate s = Ok (inject_Z (_success_count s) / inject_Z total)%Q).
  { intros Ht. unfold get_success_rate. fold total.
    destruct (Z.eqb_spec total 0) as [E|E]; [lia|].
    apply truediv_nonzero, inject_Z_nonzero, E. }
  repeat split; try assumption.
  - unfold total. lia.
  - destruct (Z.eq_dec total 0) as [E|E].
    + exists 0%Q. auto.
    + eexists. apply Hpos. unfold total in *. lia.
Qed.

Lemma success_rate_spec_witness :
  get_success_rate scenario_mixed = Ok (1 # 2)%Q.
Proof.
  assert (Hr : @reachable str_integral scenario_mixed)
    by apply reachable_run, reachable_init.
  destruct (@success_rate_spec str_integral scenario_mixed Hr)
    as (_ & _ & Hpos & _).
  refine (eq_trans (Hpos _) _); vm_compute; reflexivity.
Defined.

(** ** Recording errors *)

Lemma errors_append_lookup (errors : gmap string (list ErrorData))
    (error_type : string) (d : ErrorData) :
  errors_append errors error_type d !! error_type
  = Some (default [] (errors !! error_type) ++ [d]).
Proof. unfold errors_append. apply lookup_insert_eq. Qed.

Lemma errors_append_lookup_ne (errors : gmap string (list ErrorData))
    (error_type k : string) (d : ErrorData) :
  k <> error_type -> errors_append errors error_type d !! k = errors !! k.
Proof. intros Hk. unfold errors_append. apply lookup_insert_ne. congruence. Qed.

Lemma error_summary_lookup (s : MetricsCollector) (k : string) :
  get_error_summary s !! k
  = (fun errors => Z.of_nat (length errors)) <$> (_errors s !! k).
Proof. unfold get_error_summary. apply lookup_fmap. Qed.

Lemma error_summary_record_error (s : MetricsCollector) (now : Q)
    (error_type message endpoint : string) :
  get_error_summary (record_error s now error_type message endpoint) !! error_type
  = Some (default 0 (get_error_summary s !! error_type) + 1).
Proof.
  rewrite !error_summary_lookup. cbn [record_error _errors].
  rewrite errors_append_lookup. cbn [fmap option_fmap option_map].
  f_equal. rewrite length_app. cbn [length].
  destruct (_errors s !! error_type);
    cbn [default fmap option_fmap option_map length]; unfold id; lia.
Qed.

(** C7: [record_error error_type message endpoint] appends one entry to the
    list stored under [error_type] in the error multimap (other keys are
    untouched), adds exactly 1 to the failure count, and adds exactly 1 to
    the timeout count exactly when [error_type] is ["timeout"].  After two
    timeout errors the summary count of ["timeout"] and the failure count have
    both grown by 2; on a new collector the summary is then
    [{"timeout": 2}]. *)
Theorem record_error_spec (s : MetricsCollector) (now now2 : Q)
    (error_type message endpoint : string) :
  let s' := record_error s now error_type message endpoint in
  let s2 :=
    record_error (record_error s now "timeout" "msg" "/x")
      now2 "timeout" "msg2" "/x" in
  (_errors s' !! error_type
   = Some (default [] (_errors s !! error_type)
           ++ [mk_error_data now message endpoint])) /\
  (forall k : string, k <> error_type -> _errors s' !! k = _errors s !! k) /\
  _failure_count s' = _failure_count s + 1 /\
  _success_count s' = _success_count s /\
  (_timeout_count s' = _timeout_count s + 1 <-> error_type = "timeout") /\
  (_timeout_count s' = _timeout_count s <-> error_type <> "timeout") /\
  (get_error_summary s' !! error_type
   = Some (default 0 (get_error_summary s !! error_type) + 1)) /\
  (get_error_summary s2 !! "timeout"
   = Some (default 0 (get_error_summary s !! "timeout") + 2)) /\
  _failure_count s2 = _failure_count s + 2 /\
  _timeout_count s2 = _timeout_count s + 2 /\
  (forall t0 : Q,
     get_error_summary
       (record_error (record_error (init t0) now "timeout" "msg" "/x")
          now2 "timeout" "msg2" "/x")
     = {["timeout" := 2]}).
Proof.
  intros s' s2.
  split; [apply errors_append_lookup|].
  split; [intros k Hk; apply errors_append_lookup_ne; exact Hk|].
  split; [reflexivity|]. split; [reflexivity|].
  assert (Ht : _timeout_count s'
               = if String.eqb error_type "timeout"
                 then _timeout_count s + 1 else _timeout_count s)
    by reflexivity.
  split; [|split].
  - rewrite Ht. destruct (String.eqb_spec error_type "timeout"); split;
      intros; try lia; congruence.
  - rewrite Ht. destruct (String.eqb_spec error_type "timeout"); split;
      intros; try lia; congruence.
  - split; [apply error_summary_record_error|].
    split.
    + unfold s2. rewrite !error_summary_record_error.
      cbn [from_option]. unfold id. f_equal. lia.
    + split; [unfold s2; cbn; lia|]. split; [unfold s2; cbn; lia|].
      intros t0. apply map_eq. intros k.
      destruct (decide (k = "timeout")) as [->|Hk].
      * rewrite error_summary_record_error, error_summary_record_error.
        rewrite lookup_singleton_eq. reflexivity.
      * rewrite lookup_singleton_ne by congruence.
        rewrite error_summary_lookup. cbn [record_error _errors].
        rewrite !errors_append_lookup_ne by exact Hk. reflexivity.
Qed.

(** ** Minimum and maximum *)

Lemma fold_min_spec (rest : list Q) (x : Q) :
  let m := fold_left (fun m y => if Qgt_bool m y then y else m) rest x in
  In m (x :: rest) /\ (m <= x)%Q /\ forall y, In y rest -> (m <= y)%Q.
Proof.
  revert x. induction rest as [|z rest IH]; intros x; cbn [fold_left].
  - split; [left; reflexivity|]. split; [apply Qle_refl|]. intros y [].
  - destruct (Qgt_bool x z) eqn:E.
    + apply Qgt_bool_true in E. destruct (IH z) as (Hin & Hle & Hall).
      split; [right; exact Hin|]. split.
      * apply Qle_trans with z; [exact Hle|apply Qlt_le_weak, E].
      * intros y [<-|Hy]; [exact Hle|apply Hall, Hy].
    + apply Qgt_bool_false in E. destruct (IH x) as (Hin & Hle & Hall).
      split; [destruct Hin as [<-|Hin]; [left; reflexivity|right; right; exact Hin]|].
      split; [exact Hle|].
      intros y [<-|Hy]; [apply Qle_trans with x; assumption|apply Hall, Hy].
Qed.

Lemma fold_max_spec (rest : list Q) (x : Q) :
  let m := fold_left (fun m y => if Qgt_bool y m then y else m) rest x in
  In m (x :: rest) /\ (x <= m)%Q /\ forall y, In y rest -> (y <= m)%Q.
Proof.
  revert x. induction rest as [|z rest IH]; intros x; cbn [fold_left].
  - split; [left; reflexivity|]. split; [apply Qle_refl|]. intros y [].
  - destruct (Qgt_bool z x) eqn:E.
    + apply Qgt_bool_true in E. destruct (IH z) as (Hin & Hle & Hall).
      split; [right; exact Hin|]. split.
      * apply Qle_trans with z; [apply Qlt_le_weak, E|exact Hle].
      * intros y [<-|Hy]; [exact Hle|apply Hall, Hy].
    + apply Qgt_bool_false in E. destruct (IH x) as (Hin & Hle & Hall).
      split; [destruct Hin as [<-|Hin]; [left; reflexivity|right; right; exact Hin]|].
      split; [exact Hle|].
      intros y [<-|Hy]; [apply Qle_trans with x; assumption|apply Hall, Hy].
Qed.

Lemma py_min_spec (xs : list Q) :
  xs <> [] -> exists lo : Q, py_min xs = Ok lo /\ is_minimum xs lo.
Proof.
  destruct xs as [|x rest]; [congruence|]. intros _.
  destruct (fold_min_spec rest x) as (Hin & Hle & Hall).
  eexists. split; [reflexivity|]. split; [exact Hin|].
  intros y [<-|Hy]; [exact Hle|apply Hall, Hy].
Qed.

Lemma py_max_spec (xs : list Q) :
  xs <> [] -> exists hi : Q, py_max xs = Ok hi /\ is_maximum xs hi.
Proof.
  destruct xs as [|x rest]; [congruence|]. intros _.
  destruct (fold_max_spec rest x) as (Hin & Hle & Hall).
  eexists. split; [reflexivity|]. split; [exact Hin|].
  intros y [<-|Hy]; [exact Hle|apply Hall, Hy].
Qed.

(** ** Latency statistics *)

Lemma latency_stats_spec (window : deque Q) :
  exists stats : gmap string Q,
    latency_stats window = Ok stats /\
    (items window = [] -> stats = ∅) /\
    (items window <> [] -> stats_of (items window) stats).
Proof.
  unfold latency_stats. destruct (items window) as [|x rest] eqn:E.
  - exists ∅. split; [reflexivity|]. split; [reflexivity|congruence].
  - destruct (py_min_spec (x :: rest)) as (lo & Hlo & Hmin); [congruence|].
    destruct (py_max_spec (x :: rest)) as (hi & Hhi & Hmax); [congruence|].
    unfold np_min, np_max. rewrite Hlo, Hhi. cbn [mbind result_bind].
    eexists. split; [reflexivity|]. split; [congruence|].
    intros _. exists lo, hi. auto.
Qed.

Lemma stats_of_lookup (arr : list Q) (stats : gmap string Q) :
  stats_of arr stats ->
  stats !! "avg" = Some (np_mean arr) /\
  stats !! "median" = Some (np_median arr) /\
  stats !! "p90" = Some (np_percentile arr 90) /\
  stats !! "p95" = Some (np_percentile arr 95) /\
  (exists lo, stats !! "min" = Some lo /\ is_minimum arr lo) /\
  (exists hi, stats !! "max" = Some hi /\ is_maximum arr hi) /\
  dom stats = ({["avg"; "median"; "p90"; "p95"; "min"; "max"]} : gset string).
Proof.
  intros (lo & hi & Hlo & Hhi & ->).
  do 4 (split; [reflexivity|]).
  split; [exists lo; split; [reflexivity|exact Hlo]|].
  split; [exists hi; split; [reflexivity|exact Hhi]|].
  rewrite !dom_insert_L, dom_empty_L. set_solver.
Qed.

Lemma get_recent_latencies_ok (s : MetricsCollector) :
  exists ttft_stats ttct_stats : gmap string Q,
    get_recent_latencies s = Ok (ttft_stats, ttct_stats) /\
    (items (_recent_ttfts s) = [] -> ttft_stats = ∅) /\
    (items (_recent_ttcts s) = [] -> ttct_stats = ∅) /\
    (items (_recent_ttfts s) <> [] ->
     stats_of (items (_recent_ttfts s)) ttft_stats) /\
    (items (_recent_ttcts s) <> [] ->
     stats_of (items (_recent_ttcts s)) ttct_stats).
Proof.
  destruct (latency_stats_spec (_recent_ttfts s)) as (m1 & E1 & Hn1 & Hs1).
  destruct (latency_stats_spec (_recent_ttcts s)) as (m2 & E2 & Hn2 & Hs2).
  exists m1, m2. unfold get_recent_latencies. rewrite E1, E2.
  split; [reflexivity|]. auto.
Qed.

(** C9: [get_recent_latencies] always returns a pair of tables and raises
    nothing.  The TTFT table is empty whenever the recent TTFT window is
    empty, and the TTCT table is empty whenever the recent TTCT window is
    empty; on a new collector both are empty.  For a non-empty window the
    table holds, under the keys avg, median, p90, p95, min and max, the mean,
    median, 90th and 95th percentile, minimum and maximum of the samples
    currently in that window. *)
Theorem latency_percentiles_spec (s : MetricsCollector) :
  exists ttft_stats ttct_stats : gmap string Q,
    get_recent_latencies s = Ok (ttft_stats, ttct_stats) /\
    (items (_recent_ttfts s) = [] -> ttft_stats = ∅) /\
    (items (_recent_ttcts s) = [] -> ttct_stats = ∅) /\
    (items (_recent_ttfts s) <> [] ->
     stats_of (items (_recent_ttfts s)) ttft_stats) /\
    (items (_recent_ttcts s) <> [] ->
     stats_of (items (_recent_ttcts s)) ttct_stats) /\
    (forall t0 : Q, get_recent_latencies (init t0) = Ok (∅, ∅)).
Proof.
  destruct (get_recent_latencies_ok s) as (m1 & m2 & E & Hn1 & Hn2 & Hs1 & Hs2).
  exists m1, m2. split; [exact E|]. repeat (split; [assumption|]).
  intros t0. reflexivity.
Qed.

(** ** Session snapshot *)

(** What [get_session_metrics] puts in [avg_tokens_per_second]. *)
Lemma get_session_metrics_ok (s : MetricsCollector) (now : Q) (users : Z) :
  exists r : TestResult,
    get_session_metrics s now users = Ok r /\
    concurrent_users r = users /\
    success_count r = _success_count s /\
    failure_count r = _failure_count s /\
    total_requests r = _total_request_count s /\
    timeout_count r = _timeout_count s /\
    total_tokens r = _total_tokens s /\
    error_types r = get_error_summary s /\
    avg_tokens_per_second r
    = (if Qgt_bool (py_sum (items (_recent_ttcts s))) 0
       then (inject_Z (_total_tokens s) / py_sum (items (_recent_ttcts s)))%Q
       else 0%Q).
Proof.
  destruct (get_recent_latencies_ok s) as (m1 & m2 & E & _).
  unfold get_session_metrics. rewrite E. cbn [mbind result_bind].
  set (total_ttct := match items (_recent_ttcts s) with
                     | [] => 0%Q
                     | _ => py_sum (items (_recent_ttcts s))
                     end).
  assert (Ht : total_ttct = py_sum (items (_recent_ttcts s))).
  { unfold total_ttct. destruct (items (_recent_ttcts s)); reflexivity. }
  rewrite Ht. clear total_ttct Ht.
  destruct (Qgt_bool (py_sum (items (_recent_ttcts s))) 0) eqn:G.
  - apply Qgt_bool_true in G. rewrite truediv_nonzero.
    + eexists. split; [reflexivity|]. cbn. repeat split; reflexivity.
    + intros Hz. rewrite Hz in G. exact (Qlt_irrefl _ G).
  - eexists. split; [reflexivity|]. cbn. repeat split; reflexivity.
Qed.

(** C6: for every collector state (reachable or not) [get_session_metrics]
    returns a result whose [avg_tokens_per_second] is the accumulated token
    total divided by the sum of the samples currently in the recent TTCT
    window when that sum is positive, and 0 otherwise.  After exactly one
    [record_stream_completion] with request id "r1", ttft 0.2, ttct 1.0 and
    50 tokens on a new collector the field is 50. *)
Theorem avg_tokens_per_second_spec `{FloatStr} (s : MetricsCollector)
    (now t0 t1 : Q) (users status_code : Z) (endpoint : string) :
  let total_ttct := py_sum (items (_recent_ttcts s)) in
  let s1 :=
    record_stream_completion (init t0) t1 endpoint status_code (2 # 10) 1 50
      (Some "r1") in
  (exists r : TestResult,
     get_session_metrics s now users = Ok r /\
     ((0 < total_ttct)%Q ->
      avg_tokens_per_second r = (inject_Z (_total_tokens s) / total_ttct)%Q) /\
     (~ (0 < total_ttct)%Q -> avg_tokens_per_second r = 0%Q)) /\
  (exists r1 : TestResult,
     get_session_metrics s1 now users = Ok r1 /\
     avg_tokens_per_second r1 = 50%Q /\
     total_tokens r1 = 50).
Proof.
  intros total_ttct s1. split.
  - destruct (get_session_metrics_ok s now users)
      as (r & Hr & _ & _ & _ & _ & _ & _ & _ & Havg).
    exists r. split; [exact Hr|]. fold total_ttct in Havg.
    destruct (Qgt_bool total_ttct 0) eqn:G.
    + split; [intros _; exact Havg|].
      apply Qgt_bool_true in G. intros Hn. contradiction.
    + apply Qgt_bool_false in G. split; [|intros _; exact Havg].
      intros Hp. exfalso. exact (Qlt_not_le _ _ Hp G).
  - destruct (get_session_metrics_ok s1 now users)
      as (r & Hr & _ & _ & _ & _ & _ & Htok & _ & Havg).
    exists r. split; [exact Hr|]. split.
    + rewrite Havg. reflexivity.
    + rewrite Htok. reflexivity.
Qed.

(** ** Counting calls in a trace *)

Lemma count_ops_app (p : Op -> bool) (ops1 ops2 : list Op) :
  count_ops p (ops1 ++ ops2) = count_ops p ops1 + count_ops p ops2.
Proof.
  induction ops1 as [|op ops1 IH]; cbn [count_ops app]; [reflexivity|].
  rewrite IH. lia.
Qed.

Lemma current_session_snoc (ops : list Op) (op : Op) :
  current_session (ops ++ [op])
  = if is_reset op then [] else current_session ops ++ [op].
Proof. unfold current_session. rewrite fold_left_app. reflexivity. Qed.

Lemma current_session_no_reset (ops : list Op) :
  existsb is_reset ops = false -> current_session ops = ops.
Proof.
  induction ops as [|op ops IH] using rev_ind; [reflexivity|].
  rewrite existsb_app. cbn [existsb]. rewrite orb_false_r.
  intros Hex. apply orb_false_iff in Hex as [H1 H2].
  rewrite current_session_snoc, H2, IH by exact H1. reflexivity.
Qed.

Lemma is_success_status_spec (status_code : Z) :
  is_success_status status_code = true <-> 200 <= status_code < 300.
Proof. unfold is_success_status. rewrite andb_true_iff. lia. Qed.

Section TallyFacts.

Context `{FloatStr}.

Lemma total_request_count_session (t0 : Q) (ops : list Op) :
  _total_request_count (run (init t0) ops)
  = count_ops is_record_request (current_session ops).
Proof.
  induction ops as [|op ops IH] using rev_ind; [reflexivity|].
  rewrite run_snoc, current_session_snoc.
  destruct op; cbn [step is_reset];
    rewrite ?count_ops_app; cbn [count_ops is_record_request];
    cbn [record_request record_stream_completion record_error reset
         _total_request_count]; lia.
Qed.

Lemma run_record_requests (ops : list Op) (s0 : MetricsCollector) :
  forallb is_record_request ops = true ->
  _success_count (run s0 ops)
  = _success_count s0 + count_ops is_non_stream_success ops /\
  _failure_count (run s0 ops)
  = _failure_count s0 + count_ops is_non_stream_failure ops.
Proof.
  revert s0. induction ops as [|op ops IH]; intros s0 Hall.
  - cbn. lia.
  - cbn [forallb] in Hall. apply andb_true_iff in Hall as [Hop Hall].
    rewrite run_cons. destruct (IH (step s0 op) Hall) as [-> ->].
    destruct op as [now ep me sc ttft ttct cl st rid| | |]; try discriminate.
    cbn [step record_request _success_count _failure_count count_ops
         is_non_stream_success is_non_stream_failure].
    destruct st, (is_success_status sc); cbn [negb andb]; lia.
Qed.

Lemma count_non_stream_split (ops : list Op) :
  count_ops is_non_stream_request ops
  = count_ops is_non_stream_success ops + count_ops is_non_stream_failure ops.
Proof.
  induction ops as [|op ops IH]; [reflexivity|].
  cbn [count_ops]. rewrite IH.
  destruct op as [now ep me sc ttft ttct cl st rid| | |];
    cbn [is_non_stream_request is_non_stream_success is_non_stream_failure];
    try lia.
  destruct st, (is_success_status sc); cbn [negb andb]; lia.
Qed.

(** The tallies after one [record_stream_completion], by whether the request
    id was already in the seen-set. *)
Lemma stream_completion_seen (s : MetricsCollector) (now : Q)
    (endpoint : string) (status_code : Z) (ttft ttct : Q) (token_count : Z)
    (request_id : option string) :
  let s' := record_stream_completion s now endpoint status_code ttft ttct
              token_count request_id in
  request_id_or_default endpoint now request_id ∈ _sse_request_ids s ->
  _success_count s' = _success_count s /\
  _failure_count s' = _failure_count s /\
  _sse_request_ids s' = _sse_request_ids s.
Proof.
  intros s' Hin. unfold s', record_stream_completion.
  cbn [_success_count _failure_count _sse_request_ids].
  rewrite bool_decide_eq_false_2 by (intros Hn; exact (Hn Hin)).
  cbn [andb]. auto.
Qed.

Lemma stream_completion_unseen (s : MetricsCollector) (now : Q)
    (endpoint : string) (status_code : Z) (ttft ttct : Q) (token_count : Z)
    (request_id : option string) :
  let s' := record_stream_completion s now endpoint status_code ttft ttct
              token_count request_id in
  request_id_or_default endpoint now request_id ∉ _sse_request_ids s ->
  _success_count s'
  = _success_count s + (if is_success_status status_code then 1 else 0) /\
  _failure_count s'
  = _failure_count s + (if is_success_status status_code then 0 else 1) /\
  _sse_request_ids s'
  = {[request_id_or_default endpoint now request_id]} ∪ _sse_request_ids s.
Proof.
  intros s' Hnin. unfold s', record_stream_completion.
  cbn [_success_count _failure_count _sse_request_ids].
  rewrite bool_decide_eq_true_2 by exact Hnin.
  destruct (is_success_status status_code); cbn [andb negb]; repeat split; lia.
Qed.

End TallyFacts.

(** ** Tallies of record_request *)

(** C3: a [record_request] call with [is_stream] true leaves both tallies
    alone; with [is_stream] false it adds 1 to the success count when the
    status code is in [200,300) and 1 to the failure count otherwise.  Hence
    after any sequence of [record_request] calls (with distinct request ids
    or not) on a new or newly reset collector, success count plus failure count
    is the number of calls with [is_stream] false.  Three non-stream requests
    with status codes 200, 200, 500 give success count 2, failure count 1 and
    success rate 2/3. *)
Theorem record_request_tallies `{FloatStr} (s0 : MetricsCollector)
    (ops : list Op) :
  forallb is_record_request ops = true ->
  (_success_count (run s0 ops)
   = _success_count s0 + count_ops is_non_stream_success ops /\
   _failure_count (run s0 ops)
   = _failure_count s0 + count_ops is_non_stream_failure ops) /\
  (forall t0 : Q,
     _success_count (run (init t0) ops) + _failure_count (run (init t0) ops)
     = count_ops is_non_stream_request ops) /\
  (forall (s : MetricsCollector) (t : Q),
     _success_count (run (reset s t) ops) + _failure_count (run (reset s t) ops)
     = count_ops is_non_stream_request ops) /\
  (forall (s : MetricsCollector) (now : Q) (endpoint method : string)
          (status_code : Z) (ttft : option Q) (ttct : Q) (content_length : Z)
          (is_stream : bool) (request_id : option string),
     let s' := record_request s now endpoint method status_code ttft ttct
                 content_length is_stream request_id in
     (is_stream = true ->
      _success_count s' = _success_count s /\
      _failure_count s' = _failure_count s) /\
     (is_stream = false -> 200 <= status_code < 300 ->
      _success_count s' = _success_count s + 1 /\
      _failure_count s' = _failure_count s) /\
     (is_stream = false -> ~ 200 <= status_code < 300 ->
      _success_count s' = _success_count s /\
      _failure_count s' = _failure_count s + 1)) /\
  (forall (t0 n1 n2 n3 : Q) (e1 e2 e3 m1 m2 m3 : string)
          (f1 f2 f3 : option Q) (c1 c2 c3 : Q) (l1 l2 l3 : Z)
          (i1 i2 i3 : option string),
     let s := run (init t0)
                [RecordRequest n1 e1 m1 200 f1 c1 l1 false i1;
                 RecordRequest n2 e2 m2 200 f2 c2 l2 false i2;
                 RecordRequest n3 e3 m3 500 f3 c3 l3 false i3] in
     _success_count s = 2 /\ _failure_count s = 1 /\
     get_success_rate s = Ok (2 # 3)%Q).
Proof.
  intros Hall.
  split; [apply run_record_requests, Hall|].
  split.
  { intros t0. destruct (run_record_requests ops (init t0) Hall) as [-> ->].
    rewrite count_non_stream_split. cbn [init _success_count _failure_count].
    lia. }
  split.
  { intros s t. destruct (run_record_requests ops (reset s t) Hall) as [-> ->].
    rewrite count_non_stream_split. cbn [reset _success_count _failure_count].
    lia. }
  split.
  { intros s now endpoint method status_code ttft ttct content_length
      is_stream request_id s'.
    unfold s'. cbn [record_request _success_count _failure_count].
    pose proof (is_success_status_spec status_code) as Hsc.
    destruct is_stream, (is_success_status status_code);
      repeat split; intros; try discriminate; try lia;
      exfalso; intuition (discriminate || lia). }
  intros t0 n1 n2 n3 e1 e2 e3 m1 m2 m3 f1 f2 f3 c1 c2 c3 l1 l2 l3 i1 i2 i3 s.
  repeat split.
Qed.

Lemma record_request_tallies_witness :
  _success_count (@run str_integral (init 0) requests_mixed) = 1 /\
  _failure_count (@run str_integral (init 0) requests_mixed) = 1.
Proof.
  exact (proj1 (@record_request_tallies str_integral (init 0) requests_mixed
                  eq_refl)).
Defined.

(** ** The total-request counter *)

(** C10: [record_stream_completion] leaves the total-request counter
    unchanged.  The [total_requests] field of the session result is the
    number of [record_request] calls (stream or not) made since the collector
    was created or last reset, which for a trace without reset is the number
    of all its [record_request] calls.  A stream whose completion is reported
    only through [record_stream_completion] counts toward success or failure
    and toward the token total but not toward [total_requests], so
    success count plus failure count can exceed [total_requests]. *)
Theorem total_requests_counts_record_request `{FloatStr} (ops : list Op) :
  existsb is_reset ops = false ->
  (forall (s : MetricsCollector) (now : Q) (endpoint : string)
          (status_code : Z) (ttft ttct : Q) (token_count : Z)
          (request_id : option string),
     _total_request_count
       (record_stream_completion s now endpoint status_code ttft ttct
          token_count request_id)
     = _total_request_count s) /\
  (forall (t0 now : Q) (users : Z),
     exists r : TestResult,
       get_session_metrics (run (init t0) ops) now users = Ok r /\
       total_requests r = count_ops is_record_request ops) /\
  (forall (t0 now : Q) (users : Z) (any_ops : list Op),
     exists r : TestResult,
       get_session_metrics (run (init t0) any_ops) now users = Ok r /\
       total_requests r
       = count_ops is_record_request (current_session any_ops)) /\
  (forall (t0 t1 now : Q) (users : Z) (endpoint : string) (status_code : Z)
          (ttft ttct : Q) (token_count : Z) (request_id : option string),
     exists r : TestResult,
       get_session_metrics
         (run (init t0)
            [RecordStreamCompletion t1 endpoint status_code ttft ttct
               token_count request_id]) now users = Ok r /\
       success_count r + failure_count r = 1 /\
       total_tokens r = token_count /\
       total_requests r = 0 /\
       total_requests r < success_count r + failure_count r).
Proof.
  intros Hnoreset.
  assert (Hany : forall (t0 now : Q) (users : Z) (any_ops : list Op),
     exists r : TestResult,
       get_session_metrics (run (init t0) any_ops) now users = Ok r /\
       total_requests r
       = count_ops is_record_request (current_session any_ops)).
  { intros t0 now users any_ops.
    destruct (get_session_metrics_ok (run (init t0) any_ops) now users)
      as (r & Hr & _ & _ & _ & Htot & _).
    exists r. split; [exact Hr|].
    rewrite Htot. apply total_request_count_session. }
  split; [reflexivity|].
  split.
  { intros t0 now users. destruct (Hany t0 now users ops) as (r & Hr & Htot).
    exists r. split; [exact Hr|].
    rewrite Htot, current_session_no_reset by exact Hnoreset. reflexivity. }
  split; [exact Hany|].
  intros t0 t1 now users endpoint status_code ttft ttct token_count request_id.
  destruct (get_session_metrics_ok
              (run (init t0)
                 [RecordStreamCompletion t1 endpoint status_code ttft ttct
                    token_count request_id]) now users)
    as (r & Hr & _ & Hs & Hf & Htot & _ & Htok & _).
  exists r. split; [exact Hr|].
  rewrite Hs, Hf, Htot, Htok. cbn [run fold_left step].
  destruct (stream_completion_unseen (init t0) t1 endpoint status_code ttft
              ttct token_count request_id) as (-> & -> & _).
  { cbn [init _sse_request_ids]. apply not_elem_of_empty. }
  cbn [record_stream_completion init _success_count _failure_count
       _total_request_count _total_tokens].
  destruct (is_success_status status_code); lia.
Qed.

Lemma total_requests_counts_record_request_witness :
  (exists r : TestResult,
     get_session_metrics (@run str_integral (init 0) requests_mixed) 9 4 = Ok r /\
     total_requests r = 3) /\
  (exists r : TestResult,
     get_session_metrics (@run str_integral (init 0) session_with_reset) 9 4
     = Ok r /\
     total_requests r = 1).
Proof.
  destruct (@total_requests_counts_record_request str_integral requests_mixed
              eq_refl) as (_ & Hplain & Hany & _).
  split; [exact (Hplain 0%Q 9%Q 4)|exact (Hany 0%Q 9%Q 4 session_with_reset)].
Defined.

(** ** Deduplication of stream completions *)

Section Dedup.

Context `{FloatStr}.

Lemma completes_true (r : string) (op : Op) :
  completes r op = true <-> completion_id op = Some r.
Proof. unfold completes. apply bool_decide_eq_true. Qed.

(** Only a completion for [r] (or a reset) changes whether [r] is in the
    seen-set. *)
Lemma seen_after_other (s : MetricsCollector) (r : string) (op : Op) :
  is_reset op = false -> completes r op = false ->
  (r ∈ _sse_request_ids (step s op) <-> r ∈ _sse_request_ids s).
Proof.
  intros Hre Hc.
  destruct op as [now ep me sc ttft ttct cl st rid
                 |now ep sc ttft ttct tc rid
                 |now et em ep
                 |now]; try discriminate; try reflexivity.
  cbn [step].
  assert (Hne : request_id_or_default ep now rid <> r).
  { intros E. unfold completes in Hc. apply bool_decide_eq_false in Hc.
    apply Hc. cbn [completion_id]. congruence. }
  destruct (decide (request_id_or_default ep now rid ∈ _sse_request_ids s))
    as [Hin|Hnin].
  - destruct (stream_completion_seen s now ep sc ttft ttct tc rid Hin)
      as (_ & _ & ->). reflexivity.
  - destruct (stream_completion_unseen s now ep sc ttft ttct tc rid Hnin)
      as (_ & _ & ->).
    rewrite elem_of_union, elem_of_singleton. split; [|tauto].
    intros [E|Hin]; [congruence|exact Hin].
Qed.

Lemma seen_after_completion (s : MetricsCollector) (r : string) (op : Op) :
  completes r op = true -> r ∈ _sse_request_ids (step s op).
Proof.
  intros Hc. apply completes_true in Hc.
  destruct op as [|now ep sc ttft ttct tc rid| |]; try discriminate.
  cbn [completion_id] in Hc.
  assert (Hr : request_id_or_default ep now rid = r) by congruence. cbn [step].
  destruct (decide (request_id_or_default ep now rid ∈ _sse_request_ids s))
    as [Hin|Hnin].
  - destruct (stream_completion_seen s now ep sc ttft ttct tc rid Hin)
      as (_ & _ & ->). congruence.
  - destruct (stream_completion_unseen s now ep sc ttft ttct tc rid Hnin)
      as (_ & _ & ->).
    rewrite elem_of_union, elem_of_singleton. left. congruence.
Qed.

(** The change one completion for [r] makes to the two tallies. *)
Lemma completion_delta (s : MetricsCollector) (r : string) (op : Op) :
  completes r op = true ->
  (r ∈ _sse_request_ids s ->
   _success_count (step s op) - _success_count s = 0 /\
   _failure_count (step s op) - _failure_count s = 0) /\
  (r ∉ _sse_request_ids s ->
   _success_count (step s op) - _success_count s
   = (if is_success_status (op_status_code op) then 1 else 0) /\
   _failure_count (step s op) - _failure_count s
   = (if is_success_status (op_status_code op) then 0 else 1)).
Proof.
  intros Hc. apply completes_true in Hc.
  destruct op as [|now ep sc ttft ttct tc rid| |]; try discriminate.
  cbn [completion_id] in Hc.
  assert (Hr : request_id_or_default ep now rid = r) by congruence.
  cbn [step op_status_code]. split; intros Hs.
  - destruct (stream_completion_seen s now ep sc ttft ttct tc rid)
      as (-> & -> & _); [congruence|lia].
  - destruct (stream_completion_unseen s now ep sc ttft ttct tc rid)
      as (-> & -> & _); [congruence|lia].
Qed.

(** Once [r] is in the seen-set, completions for [r] add nothing. *)
Lemma tallied_seen (r : string) (ops : list Op) (s : MetricsCollector) :
  existsb is_reset ops = false -> r ∈ _sse_request_ids s ->
  tallied (completes r) s ops = (0, 0).
Proof.
  revert s. induction ops as [|op ops IH]; intros s Hre Hs; [reflexivity|].
  cbn [existsb] in Hre. apply orb_false_iff in Hre.
  destruct Hre as [Hop Hre].
  cbn [tallied]. destruct (completes r op) eqn:Hc.
  - rewrite (IH (step s op) Hre (seen_after_completion s r op Hc)).
    destruct (completion_delta s r op Hc) as [Hd _].
    destruct (Hd Hs) as [-> ->]. reflexivity.
  - apply IH; [exact Hre|]. apply seen_after_other; assumption.
Qed.

(** While [r] is not in the seen-set, only the first completion for [r]
    counts, as a success or a failure according to its status code. *)
Lemma tallied_unseen (r : string) (ops : list Op) (s : MetricsCollector) :
  existsb is_reset ops = false -> r ∉ _sse_request_ids s ->
  tallied (completes r) s ops
  = match first_completion_status r ops with
    | None => (0, 0)
    | Some status_code =>
      if is_success_status status_code then (1, 0) else (0, 1)
    end.
Proof.
  revert s. induction ops as [|op ops IH]; intros s Hre Hs; [reflexivity|].
  cbn [existsb] in Hre. apply orb_false_iff in Hre.
  destruct Hre as [Hop Hre].
  cbn [tallied first_completion_status]. destruct (completes r op) eqn:Hc.
  - rewrite (tallied_seen r ops (step s op) Hre
               (seen_after_completion s r op Hc)).
    destruct (completion_delta s r op Hc) as [_ Hd].
    destruct (Hd Hs) as [-> ->].
    destruct (is_success_status (op_status_code op)); reflexivity.
  - apply IH; [exact Hre|]. rewrite seen_after_other; assumption.
Qed.

Lemma first_completion_status_in (r : string) (ops : list Op) :
  match first_completion_status r ops with
  | None => existsb (completes r) ops = false
  | Some status_code =>
    exists op : Op,
      In op ops /\ completes r op = true /\ op_status_code op = status_code
  end.
Proof.
  induction ops as [|op ops IH]; [reflexivity|].
  cbn [first_completion_status existsb]. destruct (completes r op) eqn:Hc.
  - exists op. split; [left; reflexivity|]. split; [exact Hc|reflexivity].
  - cbn [orb]. destruct (first_completion_status r ops) as [sc|].
    + destruct IH as (op' & Hin & Hc' & Hsc). exists op'.
      split; [right; exact Hin|]. split; assumption.
    + exact IH.
Qed.

Lemma run_total_tokens (ops : list Op) (s : MetricsCollector) :
  existsb is_reset ops = false ->
  _total_tokens (run s ops) = _total_tokens s + sum_token_counts ops.
Proof.
  revert s. induction ops as [|op ops IH]; intros s Hre.
  - cbn. lia.
  - cbn [existsb] in Hre. apply orb_false_iff in Hre.
    destruct Hre as [Hop Hre].
    rewrite run_cons, (IH _ Hre). cbn [sum_token_counts].
    destruct op; try discriminate;
      cbn [step record_request record_stream_completion record_error
           _total_tokens op_token_count]; lia.
Qed.

End Dedup.

(** C1: take any collector state in which request id [r] has not been
    completed yet (a new or newly reset collector in particular) and any
    sequence of recording operations that follows without a reset.  If
    [record_stream_completion] is called for [r] at least once (so also when
    it is called two or more times) and every such call has a status code in
    [200,300), the calls for [r] add exactly 1 to the success count in total
    and nothing to the failure count.  Every call, repeated or not, adds its
    [token_count] to the token total.  In particular two calls with request
    id [r] and status 200 raise the success count by 1, not 2. *)
Theorem stream_completion_tallied_once `{FloatStr} (s : MetricsCollector)
    (r : string) (ops : list Op) :
  r ∉ _sse_request_ids s ->
  existsb is_reset ops = false ->
  existsb (completes r) ops = true ->
  (forall op : Op, In op ops -> completes r op = true ->
                   200 <= op_status_code op < 300) ->
  tallied (completes r) s ops = (1, 0) /\
  _total_tokens (run s ops) = _total_tokens s + sum_token_counts ops /\
  (forall (s1 : MetricsCollector) (now : Q) (endpoint : string)
          (status_code : Z) (ttft ttct : Q) (token_count : Z)
          (request_id : option string),
     _total_tokens
       (record_stream_completion s1 now endpoint status_code ttft ttct
          token_count request_id)
     = _total_tokens s1 + token_count) /\
  (forall (n1 n2 : Q) (e1 e2 : string) (f1 f2 c1 c2 : Q) (k1 k2 : Z),
     let s2 :=
       record_stream_completion
         (record_stream_completion s n1 e1 200 f1 c1 k1 (Some r))
         n2 e2 200 f2 c2 k2 (Some r) in
     _success_count s2 = _success_count s + 1 /\
     _failure_count s2 = _failure_count s /\
     _total_tokens s2 = _total_tokens s + k1 + k2) /\
  (forall (s0 : MetricsCollector) (t0 : Q),
     (r ∉ _sse_request_ids (init t0)) /\ (r ∉ _sse_request_ids (reset s0 t0))).
Proof.
  intros Hs Hre Hex Hok.
  split.
  { rewrite (tallied_unseen r ops s Hre Hs).
    pose proof (first_completion_status_in r ops) as Hfirst.
    destruct (first_completion_status r ops) as [sc|].
    - destruct Hfirst as (op & Hin & Hc & <-).
      rewrite (proj2 (is_success_status_spec _) (Hok op Hin Hc)).
      reflexivity.
    - congruence. }
  split; [apply run_total_tokens, Hre|].
  split; [reflexivity|].
  split; [|intros s0 t0; split; apply not_elem_of_empty].
  intros n1 n2 e1 e2 f1 f2 c1 c2 k1 k2 s2. unfold s2.
  destruct (stream_completion_unseen s n1 e1 200 f1 c1 k1 (Some r) Hs)
    as (Hs1 & Hf1 & Hseen).
  destruct (stream_completion_seen
              (record_stream_completion s n1 e1 200 f1 c1 k1 (Some r))
              n2 e2 200 f2 c2 k2 (Some r)) as (-> & -> & _).
  { rewrite Hseen. cbn [request_id_or_default].
    rewrite elem_of_union, elem_of_singleton. left. reflexivity. }
  rewrite Hs1, Hf1. cbn [record_stream_completion _total_tokens].
  change (is_success_status 200) with true. cbn iota. lia.
Qed.

Lemma stream_completion_tallied_once_witness :
  @tallied str_integral (@completes str_integral "r7") (init 0)
    repeated_completions = (1, 0) /\
  _total_tokens (@run str_integral (init 0) repeated_completions)
  = _total_tokens (init 0) + @sum_token_counts repeated_completions.
Proof.
  assert (Hok : forall op : Op, In op repeated_completions ->
                  @completes str_integral "r7" op = true ->
                  200 <= op_status_code op < 300).
  { intros op Hin Hc. unfold repeated_completions in Hin. cbn [In] in Hin.
    destruct Hin as [<-|[<-|[<-|[<-|[<-|[<-|[]]]]]]]; cbn; try lia;
      vm_compute in Hc; discriminate. }
  assert (Hs : "r7" ∉ _sse_request_ids (init 0))
    by (cbn [init _sse_request_ids]; apply not_elem_of_empty).
  destruct (@stream_completion_tallied_once str_integral (init 0) "r7"
              repeated_completions Hs eq_refl eq_refl Hok) as (Ht & Htok & _).
  exact (conj Ht Htok).
Defined.

(** Counterexample to C2 as stated: both operations are [record_request]
    calls carrying request id "r", and both are counted, so the calls carrying
    "r" change success count plus failure count by 2. *)
Lemma repeated_request_counted_twice :
  forallb is_record_request repeated_request = true /\
  forallb (@carries str_integral "r") repeated_request = true /\
  @tallied str_integral (@carries str_integral "r") (init 0) repeated_request
  = (2, 0) /\
  _success_count (@run str_integral (init 0) repeated_request)
  + _failure_count (@run str_integral (init 0) repeated_request) = 2 /\
  ~ (fst (@tallied str_integral (@carries str_integral "r") (init 0)
            repeated_request)
     + snd (@tallied str_integral (@carries str_integral "r") (init 0)
              repeated_request) <= 1).
Proof.
  assert (Ht : @tallied str_integral (@carries str_integral "r") (init 0)
                 repeated_request = (2, 0)) by (vm_compute; reflexivity).
  rewrite Ht. repeat split; try (vm_compute; reflexivity).
  cbn [fst snd]. lia.
Qed.

(** C2, as the code has it: deduplication by request id applies to
    [record_stream_completion] only.  For every request id [r], every
    collector state and every sequence of recording operations without a
    reset, the [record_stream_completion] calls for [r] add, all together,
    at most 1 to success count plus failure count: nothing when [r] was
    completed before, and otherwise only the first of them counts, as a
    success or a failure by its status code.  [record_request] never consults
    the seen-set: a call with [is_stream] false adds 1 to success count plus
    failure count every time, whatever its request id, and a call with
    [is_stream] true adds nothing. *)
Theorem stream_completion_counted_at_most_once `{FloatStr}
    (s : MetricsCollector) (r : string) (ops : list Op) :
  existsb is_reset ops = false ->
  let t := tallied (completes r) s ops in
  (0 <= fst t /\ 0 <= snd t /\ fst t + snd t <= 1) /\
  (r ∈ _sse_request_ids s -> t = (0, 0)) /\
  (r ∉ _sse_request_ids s ->
   t = match first_completion_status r ops with
       | None => (0, 0)
       | Some status_code =>
         if is_success_status status_code then (1, 0) else (0, 1)
       end) /\
  (forall (s1 : MetricsCollector) (now : Q) (endpoint method : string)
          (status_code : Z) (ttft : option Q) (ttct : Q) (content_length : Z)
          (is_stream : bool) (request_id : option string),
     let s1' := record_request s1 now endpoint method status_code ttft ttct
                  content_length is_stream request_id in
     _success_count s1' + _failure_count s1'
     = _success_count s1 + _failure_count s1 + (if is_stream then 0 else 1) /\
     _sse_request_ids s1' = _sse_request_ids s1).
Proof.
  intros Hre t.
  assert (Hseen : r ∈ _sse_request_ids s -> t = (0, 0))
    by (intros Hs; apply tallied_seen; assumption).
  assert (Hunseen : r ∉ _sse_request_ids s ->
            t = match first_completion_status r ops with
                | None => (0, 0)
                | Some status_code =>
                  if is_success_status status_code then (1, 0) else (0, 1)
                end)
    by (intros Hs; apply tallied_unseen; assumption).
  split.
  { destruct (decide (r ∈ _sse_request_ids s)) as [Hs|Hs].
    - rewrite (Hseen Hs). cbn [fst snd]. lia.
    - rewrite (Hunseen Hs).
      destruct (first_completion_status r ops) as [sc|];
        [destruct (is_success_status sc)|]; cbn [fst snd]; lia. }
  split; [exact Hseen|]. split; [exact Hunseen|].
  intros s1 now endpoint method status_code ttft ttct content_length
    is_stream request_id s1'.
  unfold s1'. cbn [record_request _success_count _failure_count
                   _sse_request_ids].
  split; [|reflexivity].
  destruct is_stream, (is_success_status status_code); lia.
Qed.

Lemma stream_completion_counted_at_most_once_witness :
  @tallied str_integral (@completes str_integral "r8") (init 0)
    repeated_completions = (0, 1).
Proof.
  assert (Hs : "r8" ∉ _sse_request_ids (init 0))
    by (cbn [init _sse_request_ids]; apply not_elem_of_empty).
  destruct (@stream_completion_counted_at_most_once str_integral (init 0) "r8"
              repeated_completions eq_refl) as (_ & _ & Hun & _).
  refine (eq_trans (Hun Hs) _). vm_compute. reflexivity.
Defined.

(** ** Current throughput *)

Lemma trailing_minute_In (now : Q) (times : list Q) (t : Q) :
  In t (trailing_minute now times) <-> In t times /\ (now - t <= 60)%Q.
Proof.
  unfold trailing_minute.
  rewrite <- !list_elem_of_In, list_elem_of_filter, Qle_bool_iff. tauto.
Qed.

(** Counterexample to C8 as stated: fewer than 2 windowed timestamps (one)
    fall within the trailing 60 seconds, yet the result is 0.1, not 0.0. *)
Lemma current_rps_single_recent_sample :
  items (_request_times sparse_requests) = [0%Q; 100%Q] /\
  trailing_minute 110 (items (_request_times sparse_requests)) = [100%Q] /\
  (length (trailing_minute 110 (items (_request_times sparse_requests))) < 2)%nat /\
  get_current_rps sparse_requests 110 = Ok (1 # 10)%Q /\
  get_current_rps sparse_requests 110 <> Ok 0%Q /\
  ~ (1 # 10 == 0)%Q.
Proof.
  split; [vm_compute; reflexivity|].
  split; [vm_compute; reflexivity|].
  split; [vm_compute; lia|].
  split; [vm_compute; reflexivity|].
  split; [vm_compute; discriminate|].
  intros E. vm_compute in E. discriminate.
Qed.

(** C8, as the code has it: [get_current_rps] never raises.  It returns 0.0
    when the recent-timestamp window holds fewer than 2 timestamps, when none
    of them satisfies [now - t <= 60], or when the span from the oldest such
    timestamp to [now] is not positive.  Otherwise it returns the number of
    windowed timestamps [t] with [now - t <= 60] divided by that span; one
    such timestamp is enough when the window holds at least 2. *)
Theorem current_rps_spec (s : MetricsCollector) (now : Q) :
  let times := items (_request_times s) in
  let recent := trailing_minute now times in
  (forall t : Q, In t recent <-> In t times /\ (now - t <= 60)%Q) /\
  (exists rps : Q, get_current_rps s now = Ok rps) /\
  ((length times < 2)%nat -> get_current_rps s now = Ok 0%Q) /\
  (recent = [] -> get_current_rps s now = Ok 0%Q) /\
  ((2 <= length times)%nat -> recent <> [] ->
   exists oldest : Q,
     is_minimum recent oldest /\
     ((now - oldest <= 0)%Q -> get_current_rps s now = Ok 0%Q) /\
     ((0 < now - oldest)%Q ->
      get_current_rps s now
      = Ok (inject_Z (Z.of_nat (length recent)) / (now - oldest))%Q)).
Proof.
  intros times recent.
  assert (Hfew : (length times < 2)%nat -> get_current_rps s now = Ok 0%Q).
  { intros Hlt. unfold get_current_rps. fold times.
    destruct (Nat.ltb_spec (length times) 2); [reflexivity|lia]. }
  assert (Hnone : recent = [] -> get_current_rps s now = Ok 0%Q).
  { intros Hr. unfold get_current_rps. fold times.
    destruct (length times <? 2)%nat; [reflexivity|].
    change (filter (fun t => Qle_bool (now - t) 60 = true) times) with recent.
    rewrite Hr. reflexivity. }
  assert (Hmany : (2 <= length times)%nat -> recent <> [] ->
    exists oldest : Q,
      is_minimum recent oldest /\
      ((now - oldest <= 0)%Q -> get_current_rps s now = Ok 0%Q) /\
      ((0 < now - oldest)%Q ->
       get_current_rps s now
       = Ok (inject_Z (Z.of_nat (length recent)) / (now - oldest))%Q)).
  { intros Hlen Hne.
    destruct (py_min_spec recent Hne) as (oldest & Hmin & Hspec).
    exists oldest. split; [exact Hspec|].
    unfold get_current_rps. fold times.
    destruct (Nat.ltb_spec (length times) 2) as [Hlt|_]; [lia|].
    change (filter (fun t => Qle_bool (now - t) 60 = true) times) with recent.
    destruct recent as [|t0 rest] eqn:Erecent; [congruence|].
    rewrite Hmin. cbn [mbind result_bind].
    split.
    - intros Hle. apply Qle_bool_iff in Hle. rewrite Hle. reflexivity.
    - intros Hpos.
      destruct (Qle_bool (now - oldest) 0) eqn:E.
      + apply Qle_bool_iff in E. exfalso. exact (Qlt_not_le _ _ Hpos E).
      + apply truediv_nonzero. intros Hz. rewrite Hz in Hpos.
        exact (Qlt_irrefl _ Hpos). }
  split; [intros t; apply trailing_minute_In|].
  split; [|split; [exact Hfew|split; [exact Hnone|exact Hmany]]].
  destruct (Nat.lt_ge_cases (length times) 2) as [Hlt|Hge].
  - exists 0%Q. apply Hfew, Hlt.
  - destruct recent as [|t0 rest] eqn:Erecent.
    + exists 0%Q. apply Hnone. reflexivity.
    + destruct (Hmany Hge) as (oldest & _ & Hzero & Hpos); [congruence|].
      destruct (Qlt_le_dec 0 (now - oldest)) as [Hp|Hn].
      * eexists. apply Hpos, Hp.
      * exists 0%Q. apply Hzero, Hn.
Qed.

Lemma current_rps_spec_witness :
  exists oldest : Q,
    is_minimum (trailing_minute 50 (items (_request_times sparse_requests)))
      oldest /\
    get_current_rps sparse_requests 50
    = Ok (inject_Z
            (Z.of_nat
               (length
                  (trailing_minute 50 (items (_request_times sparse_requests)))))
          / (50 - oldest))%Q.
Proof.
  destruct (current_rps_spec sparse_requests 50) as (_ & _ & _ & _ & Hmany).
  destruct Hmany as (oldest & Hmin & _ & Hpos).
  - vm_compute. lia.
  - vm_compute. discriminate.
  - exists oldest. split; [exact Hmin|]. apply Hpos.
    destruct Hmin as [_ Hall].
    assert (Hle : (oldest <= 0)%Q).
    { apply Hall. vm_compute. left. reflexivity. }
    lra.
Defined.

(** ** Further instances *)

Lemma avg_tokens_per_second_spec_witness :
  exists r : TestResult,
    get_session_metrics scenario_mixed 9 4 = Ok r /\
    avg_tokens_per_second r = (40 # 2)%Q.
Proof.
  destruct (@avg_tokens_per_second_spec str_integral scenario_mixed 9 0 0 4 200
              "/chat") as [(r & Hr & Hpos & _) _].
  exists r. split; [exact Hr|].
  refine (eq_trans (Hpos _) _); vm_compute; reflexivity.
Defined.

Lemma latency_percentiles_spec_witness :
  exists ttft_stats ttct_stats : gmap string Q,
    get_recent_latencies scenario_mixed = Ok (ttft_stats, ttct_stats) /\
    ttft_stats !! "avg" = Some (np_mean [(1 # 2)%Q]) /\
    ttct_stats !! "p95" = Some (np_percentile [2%Q] 95).
Proof.
  destruct (latency_percentiles_spec scenario_mixed)
    as (m1 & m2 & Hr & _ & _ & H1 & H2 & _).
  exists m1, m2. split; [exact Hr|]. split.
  - refine (proj1 (stats_of_lookup _ _ (H1 _))). vm_compute. discriminate.
  - refine (proj1 (proj2 (proj2 (proj2 (stats_of_lookup _ _ (H2 _)))))).
    vm_compute. discriminate.
Defined.

(** * Further properties of the collector *)

(** ** Helper facts *)

Lemma sum_Z_snoc (l : list Z) (x : Z) : sum_Z (l ++ [x]) = sum_Z l + x.
Proof.
  induction l as [|y l IH]; cbn [sum_Z app fold_right] in *; [lia|].
  fold (sum_Z (l ++ [x])). fold (sum_Z l). rewrite IH. lia.
Qed.

Lemma last_n_all {A : Type} (n : nat) (l : list A) :
  (length l <= n)%nat -> last_n n l = l.
Proof.
  intros Hle. unfold last_n. replace (length l - n)%nat with 0%nat by lia.
  reflexivity.
Qed.

Lemma last_n_length {A : Type} (n : nat) (l : list A) :
  length (last_n n l) = Nat.min n (length l).
Proof. unfold last_n. rewrite length_drop. lia. Qed.

(** Appending to a deque that holds the last [maxlen] elements of a history
    makes it hold the last [maxlen] elements of the extended history. *)
Lemma deque_append_last_n {A : Type} (d : deque A) (h : list A) (x : A) :
  items d = last_n (maxlen d) h ->
  items (deque_append d x) = last_n (maxlen d) (h ++ [x]).
Proof.
  intros Hd. unfold deque_append. cbn [items]. rewrite Hd.
  unfold last_n. rewrite !length_app, length_drop. cbn [length].
  set (c := maxlen d).
  destruct (Nat.ltb_spec c (length h - (length h - c) + 1)) as [Hlt|Hge].
  - destruct (decide (c = 0%nat)) as [Hc|Hc].
    + rewrite Hc, Nat.sub_0_r, drop_all. cbn [app tail].
      rewrite drop_ge by (rewrite length_app; cbn [length]; lia).
      reflexivity.
    + replace (length h + 1 - c)%nat with (length h - c + 1)%nat by lia.
      rewrite (drop_app_le h [x] (length h - c + 1)) by lia.
      rewrite <- (drop_drop h 1 (length h - c)).
      destruct (drop (length h - c) h) as [|y l'] eqn:E.
      * apply (f_equal length) in E. rewrite length_drop in E.
        cbn [length] in E. lia.
      * reflexivity.
  - replace (length h - c)%nat with 0%nat by lia.
    replace (length h + 1 - c)%nat with 0%nat by lia. reflexivity.
Qed.

Lemma list_to_set_fmap_snoc {A : Type} (f : A -> string) (l : list A) (x : A) :
  list_to_set (f <$> l ++ [x]) = ({[f x]} ∪ list_to_set (f <$> l) : gset string).
Proof.
  rewrite fmap_app. simpl. rewrite list_to_set_snoc_L. apply union_comm_L.
Qed.

Lemma sum_Z_fmap_snoc {A : Type} (f : A -> Z) (l : list A) (x : A) :
  sum_Z (f <$> l ++ [x]) = sum_Z (f <$> l) + f x.
Proof. rewrite fmap_app. simpl. apply sum_Z_snoc. Qed.

Lemma error_total_unfold (s : MetricsCollector) :
  error_total s
  = map_fold (fun (_ : string) (n acc : Z) => n + acc) 0
      ((fun errors => Z.of_nat (length errors)) <$> _errors s).
Proof. reflexivity. Qed.

(** One more stored error raises the total by one. *)
Lemma error_total_record_error (s : MetricsCollector) (now : Q)
    (error_type message endpoint : string) :
  error_total (record_error s now error_type message endpoint)
  = error_total s + 1.
Proof.
  rewrite !error_total_unfold. cbn [record_error _errors].
  unfold errors_append. rewrite fmap_insert.
  set (f := fun errors : list ErrorData => Z.of_nat (length errors)).
  set (g := fun (_ : string) (n acc : Z) => n + acc).
  set (m := f <$> _errors s).
  assert (Hg : forall (m' : gmap string Z) (j1 j2 : string) (z1 z2 y : Z),
            j1 <> j2 -> m' !! j1 = Some z1 -> m' !! j2 = Some z2 ->
            g j1 z1 (g j2 z2 y) = g j2 z2 (g j1 z1 y)).
  { intros. unfold g. lia. }
  destruct (_errors s !! error_type) as [l|] eqn:E.
  - assert (Hm : m !! error_type = Some (f l)).
    { unfold m. rewrite lookup_fmap, E. reflexivity. }
    rewrite <- (insert_delete_eq m).
    rewrite <- (insert_delete_id m error_type (f l) Hm) at 2.
    rewrite !map_fold_insert_L;
      [|apply Hg|apply lookup_delete_eq|apply Hg|apply lookup_delete_eq].
    unfold g, f. cbn [default from_option]. unfold id.
    rewrite length_app. cbn [length]. lia.
  - assert (Hm : m !! error_type = None).
    { unfold m. rewrite lookup_fmap, E. reflexivity. }
    rewrite map_fold_insert_L; [|apply Hg|exact Hm].
    unfold g, f. cbn [default from_option app length]. lia.
Qed.

Lemma error_total_init (t0 : Q) : error_total (init t0) = 0.
Proof. reflexivity. Qed.

(** ** The stored history *)

Lemma init_history (t0 : Q) : history_inv (init t0).
Proof.
  split; try reflexivity.
  intros k l Hk. cbn [init _errors] in Hk. rewrite lookup_empty in Hk.
  discriminate.
Qed.

Lemma reset_history (s : MetricsCollector) (now : Q) :
  history_inv s -> history_inv (reset s now).
Proof.
  intros Hs. split; try reflexivity.
  - apply (hist_active s Hs).
  - intros k l Hk. cbn [reset _errors] in Hk. rewrite lookup_empty in Hk.
    discriminate.
Qed.

Lemma record_error_history (s : MetricsCollector) (now : Q)
    (error_type message endpoint : string) :
  history_inv s -> history_inv (record_error s now error_type message endpoint).
Proof.
  intros [Ha Ht Hn Hsr Hss Hne Hse Htok Hseen Htimes Htally Hto Herr].
  split; try assumption.
  - rewrite error_total_record_error.
    cbn [record_error _success_count _failure_count _non_sse_requests
         _sse_request_ids]. lia.
  - cbn [record_error _timeout_count].
    destruct (String.eqb_spec error_type "timeout") as [->|Hne'].
    + rewrite error_summary_record_error, Hto. reflexivity.
    + rewrite Hto, !error_summary_lookup. cbn [record_error _errors].
      rewrite errors_append_lookup_ne by congruence. reflexivity.
  - intros k l. cbn [record_error _errors].
    destruct (decide (k = error_type)) as [->|Hk].
    + rewrite errors_append_lookup. intros [= <-].
      destruct (default [] (_errors s !! error_type)); discriminate.
    + rewrite errors_append_lookup_ne by exact Hk. apply Herr.
Qed.

Section HistoryFacts.

Context `{FloatStr}.

Lemma record_request_history (s : MetricsCollector) (now : Q)
    (endpoint method : string) (status_code : Z) (ttft : option Q) (ttct : Q)
    (content_length : Z) (is_stream : bool) (request_id : option string) :
  collector_inv s -> history_inv s ->
  history_inv (record_request s now endpoint method status_code ttft ttct
                 content_length is_stream request_id).
Proof.
  intros Hc [Ha Ht Hn Hsr Hss Hne Hse Htok Hseen Htimes Htally Hto Herr].
  split; try assumption;
    cbn [record_request _total_request_count _requests _non_sse_requests
         _sse_requests _non_sse_endpoints _sse_endpoints _request_times
         _success_count _failure_count _sse_request_ids].
  - rewrite length_app. cbn [length]. lia.
  - rewrite filter_app, filter_cons, filter_nil. cbn [rq_is_stream].
    destruct is_stream.
    + rewrite decide_False by discriminate. rewrite app_nil_r. exact Hn.
    + rewrite decide_True by reflexivity. rewrite Hn. reflexivity.
  - rewrite filter_app, filter_cons, filter_nil. cbn [rq_is_stream].
    destruct is_stream.
    + rewrite decide_True by reflexivity. rewrite omap_app, Hsr. reflexivity.
    + rewrite decide_False by discriminate. rewrite app_nil_r. exact Hsr.
  - destruct is_stream; [|exact Hss].
    rewrite omap_app, Hss. cbn. apply app_nil_r.
  - destruct is_stream; [exact Hne|].
    rewrite list_to_set_fmap_snoc, <- Hne. reflexivity.
  - destruct is_stream; [|exact Hse].
    rewrite list_to_set_fmap_snoc, <- Hse. reflexivity.
  - rewrite fmap_app. cbn [fmap list_fmap rq_timestamp].
    rewrite <- (inv_times_cap s Hc).
    apply deque_append_last_n. rewrite (inv_times_cap s Hc). exact Htimes.
  - change (error_total (record_request s now endpoint method status_code ttft
                           ttct content_length is_stream request_id))
      with (error_total s).
    destruct is_stream; [lia|].
    rewrite length_app. cbn [length].
    destruct (is_success_status status_code); lia.
Qed.

Lemma record_stream_completion_history (s : MetricsCollector) (now : Q)
    (endpoint : string) (status_code : Z) (ttft ttct : Q) (token_count : Z)
    (request_id : option string) :
  history_inv s ->
  history_inv (record_stream_completion s now endpoint status_code ttft ttct
                 token_count request_id).
Proof.
  intros [Ha Ht Hn Hsr Hss Hne Hse Htok Hseen Htimes Htally Hto Herr].
  set (r := request_id_or_default endpoint now request_id).
  split; try assumption.
  - cbn [record_stream_completion _sse_requests _requests].
    rewrite omap_app, Hsr. cbn. apply app_nil_r.
  - cbn [record_stream_completion _sse_requests _stream_metrics].
    rewrite omap_app, Hss. reflexivity.
  - cbn [record_stream_completion _sse_requests _sse_endpoints].
    rewrite list_to_set_fmap_snoc, <- Hse. reflexivity.
  - cbn [record_stream_completion _total_tokens _stream_metrics].
    rewrite sum_Z_fmap_snoc, Htok. reflexivity.
  - cbn [_stream_metrics record_stream_completion].
    rewrite list_to_set_fmap_snoc, <- Hseen.
    cbn [sd_request_id]. fold r.
    destruct (decide (r ∈ _sse_request_ids s)) as [Hin|Hnin].
    + destruct (stream_completion_seen s now endpoint status_code ttft ttct
                  token_count request_id Hin) as (_ & _ & ->).
      apply set_eq. intros x. rewrite elem_of_union, elem_of_singleton.
      split; [tauto|]. intros [->|Hx]; assumption.
    + destruct (stream_completion_unseen s now endpoint status_code ttft ttct
                  token_count request_id Hnin) as (_ & _ & ->).
      reflexivity.
  - change (error_total (record_stream_completion s now endpoint status_code
                           ttft ttct token_count request_id))
      with (error_total s).
    change (_non_sse_requests (record_stream_completion s now endpoint
                                 status_code ttft ttct token_count request_id))
      with (_non_sse_requests s).
    destruct (decide (r ∈ _sse_request_ids s)) as [Hin|Hnin].
    + destruct (stream_completion_seen s now endpoint status_code ttft ttct
                  token_count request_id Hin) as (-> & -> & ->). exact Htally.
    + destruct (stream_completion_unseen s now endpoint status_code ttft ttct
                  token_count request_id Hnin) as (-> & -> & ->).
      fold r. rewrite size_union, size_singleton.
      * destruct (is_success_status status_code); lia.
      * intros x Hx Hx'. apply elem_of_singleton in Hx. subst x.
        exact (Hnin Hx').
Qed.

Lemma step_history (s : MetricsCollector) (op : Op) :
  collector_inv s -> history_inv s -> history_inv (step s op).
Proof.
  intros Hc Hs. destruct op; cbn [step].
  - apply record_request_history; assumption.
  - apply record_stream_completion_history; assumption.
  - apply record_error_history; assumption.
  - apply reset_history; assumption.
Qed.

Lemma run_history (ops : list Op) (s : MetricsCollector) :
  collector_inv s -> history_inv s -> history_inv (run s ops).
Proof.
  revert s. induction ops as [|op ops IH]; intros s Hc Hs; [exact Hs|].
  rewrite run_cons. apply IH; [apply step_inv, Hc|apply step_history; assumption].
Qed.

Lemma reachable_history (s : MetricsCollector) :
  reachable s -> history_inv s.
Proof.
  intros (t0 & ops & ->). apply run_history; [apply init_inv|apply init_history].
Qed.

End HistoryFacts.

(** ** Reset and sessions *)

Lemma session_start_snoc (t0 : Q) (ops : list Op) (op : Op) :
  session_start t0 (ops ++ [op])
  = match op with Reset now => now | _ => session_start t0 ops end.
Proof. unfold session_start. rewrite fold_left_app. reflexivity. Qed.

Section ResetFacts.

Context `{FloatStr}.

Lemma reset_reachable (s : MetricsCollector) (t : Q) :
  reachable s -> reset s t = init t.
Proof.
  intros Hs. pose proof (reachable_inv s Hs) as Hc.
  pose proof (reachable_history s Hs) as Hh.
  unfold reset, init, deque_clear, deque_new.
  rewrite (inv_times_cap s Hc), (inv_ttfts_cap s Hc), (inv_ttcts_cap s Hc),
    (hist_active s Hh).
  reflexivity.
Qed.

(** X1: [reset] puts a reachable collector back into the state of a newly created
    one, so the state after any trace is the state a new collector reaches
    from the operations made since the last reset. *)
Theorem reset_starts_new_session (t0 : Q) (ops : list Op) :
  (forall t : Q, reset (run (init t0) ops) t = init t) /\
  run (init t0) ops
  = run (init (session_start t0 ops)) (current_session ops).
Proof.
  split.
  - intros t. apply reset_reachable. apply reachable_run, reachable_init.
  - induction ops as [|op ops IH] using rev_ind; [reflexivity|].
    rewrite run_snoc, session_start_snoc, current_session_snoc.
    destruct op; cbn [is_reset]; rewrite ?run_snoc, <- ?IH; try reflexivity.
    cbn [step]. apply reset_reachable. apply reachable_run, reachable_init.
Qed.

End ResetFacts.

(** ** Consistency of the stored history *)

Lemma collector_busy_reachable : @reachable str_integral collector_busy.
Proof. apply reachable_run, reachable_init. Qed.

Lemma sse_entries_length (l : list SseEntry) :
  length l = (length (omap sse_request l) + length (omap sse_stream l))%nat.
Proof.
  induction l as [|e l IH]; [reflexivity|].
  destruct e; cbn [omap list_omap sse_request sse_stream length]; cbn in IH |- *;
    lia.
Qed.

Lemma filter_stream_split (l : list RequestData) :
  length l
  = (length (filter (fun d => rq_is_stream d = false) l)
     + length (filter (fun d => rq_is_stream d = true) l))%nat.
Proof.
  induction l as [|d l IH]; [reflexivity|].
  rewrite !filter_cons. destruct (rq_is_stream d).
  - rewrite decide_False by discriminate. rewrite decide_True by reflexivity.
    cbn [length]. lia.
  - rewrite decide_True by reflexivity. rewrite decide_False by discriminate.
    cbn [length]. lia.
Qed.

(** X2: in every reachable collector the total-request counter is the length of
    the full request history [_requests]; [_non_sse_requests] holds exactly
    its non-stream records and [_sse_requests] exactly its stream records
    together with the records of [_stream_metrics], each in recording
    order. *)
Theorem history_lists_consistent `{FloatStr} (s : MetricsCollector) :
  reachable s ->
  _total_request_count s = Z.of_nat (length (_requests s)) /\
  _non_sse_requests s
  = filter (fun d => rq_is_stream d = false) (_requests s) /\
  omap sse_request (_sse_requests s)
  = filter (fun d => rq_is_stream d = true) (_requests s) /\
  omap sse_stream (_sse_requests s) = _stream_metrics s /\
  length (_requests s)
  = (length (_non_sse_requests s)
     + length (omap sse_request (_sse_requests s)))%nat /\
  (length (_sse_requests s) + length (_non_sse_requests s)
   = length (_requests s) + length (_stream_metrics s))%nat.
Proof.
  intros Hs. destruct (reachable_history s Hs)
    as [_ Ht Hn Hsr Hss _ _ _ _ _ _ _ _].
  pose proof (filter_stream_split (_requests s)) as Hsplit.
  pose proof (sse_entries_length (_sse_requests s)) as Hlen.
  rewrite <- Hn, <- Hsr in Hsplit. rewrite Hss in Hlen.
  repeat split; try assumption. lia.
Qed.

Lemma history_lists_consistent_witness :
  _total_request_count collector_busy
  = Z.of_nat (length (_requests collector_busy)) /\
  omap sse_stream (_sse_requests collector_busy)
  = _stream_metrics collector_busy.
Proof.
  destruct (@history_lists_consistent str_integral collector_busy
              collector_busy_reachable) as (Ht & _ & _ & Hss & _).
  exact (conj Ht Hss).
Defined.

(** X3: in every reachable collector [_non_sse_endpoints] is the set of endpoints
    of the non-stream request records and [_sse_endpoints] is the set of
    endpoints of the entries of [_sse_requests]. *)
Theorem endpoint_sets_consistent `{FloatStr} (s : MetricsCollector) :
  reachable s ->
  _non_sse_endpoints s = list_to_set (rq_endpoint <$> _non_sse_requests s) /\
  _sse_endpoints s = list_to_set (sse_endpoint <$> _sse_requests s) /\
  (forall endpoint : string,
     endpoint ∈ _non_sse_endpoints s <->
     exists d : RequestData,
       d ∈ _requests s /\ rq_is_stream d = false /\ rq_endpoint d = endpoint).
Proof.
  intros Hs. destruct (reachable_history s Hs)
    as [_ _ Hn _ _ Hne Hse _ _ _ _ _ _].
  split; [exact Hne|]. split; [exact Hse|].
  intros endpoint. rewrite Hne, elem_of_list_to_set, list_elem_of_fmap, Hn.
  split.
  - intros (d & -> & Hd). apply list_elem_of_filter in Hd as [Hst Hd].
    exists d. auto.
  - intros (d & Hd & Hst & <-). exists d. split; [reflexivity|].
    apply list_elem_of_filter. auto.
Qed.

Lemma endpoint_sets_consistent_witness :
  "/books" ∈ _non_sse_endpoints collector_busy <->
  exists d : RequestData,
    d ∈ _requests collector_busy /\ rq_is_stream d = false /\
    rq_endpoint d = "/books".
Proof.
  exact (proj2 (proj2 (@endpoint_sets_consistent str_integral collector_busy
                         collector_busy_reachable)) "/books").
Defined.

(** X4: in every reachable collector the token total is the sum of the token
    counts of the stored stream records, and the seen-set holds exactly the
    request ids of the stored stream records; so it never has more elements
    than there are such records. *)
Theorem stream_history_consistent `{FloatStr} (s : MetricsCollector) :
  reachable s ->
  _total_tokens s = sum_Z (sd_token_count <$> _stream_metrics s) /\
  _sse_request_ids s = list_to_set (sd_request_id <$> _stream_metrics s) /\
  (forall r : string,
     r ∈ _sse_request_ids s <->
     exists d : StreamData, d ∈ _stream_metrics s /\ sd_request_id d = r) /\
  (size (_sse_request_ids s) <= length (_stream_metrics s))%nat.
Proof.
  intros Hs. destruct (reachable_history s Hs)
    as [_ _ _ _ _ _ _ Htok Hseen _ _ _ _].
  split; [exact Htok|]. split; [exact Hseen|]. split.
  - intros r. rewrite Hseen, elem_of_list_to_set, list_elem_of_fmap.
    split; intros (d & H1 & H2); exists d; auto.
  - rewrite Hseen.
    clear. induction (_stream_metrics s) as [|d l IH]; [reflexivity|].
    cbn [fmap list_fmap list_to_set length].
    change (list_to_set (sd_request_id d :: list_fmap _ _ sd_request_id l))
      with ({[sd_request_id d]} ∪ (list_to_set (sd_request_id <$> l) : gset string)).
    pose proof (size_union_alt (C:=gset string) {[sd_request_id d]}
                  (list_to_set (sd_request_id <$> l))) as Hu.
    rewrite Hu, size_singleton.
    pose proof (subseteq_size (C:=gset string)
                  (list_to_set (sd_request_id <$> l) ∖ {[sd_request_id d]})
                  (list_to_set (sd_request_id <$> l))) as Hsub.
    assert (Hd : list_to_set (sd_request_id <$> l) ∖ {[sd_request_id d]}
                 ⊆ (list_to_set (sd_request_id <$> l) : gset string)).
    { intros x Hx. apply elem_of_difference in Hx. tauto. }
    specialize (Hsub Hd). cbn in IH. lia.
Qed.

Lemma stream_history_consistent_witness :
  _total_tokens collector_busy
  = sum_Z (sd_token_count <$> _stream_metrics collector_busy) /\
  (size (_sse_request_ids collector_busy)
   <= length (_stream_metrics collector_busy))%nat.
Proof.
  destruct (@stream_history_consistent str_integral collector_busy
              collector_busy_reachable) as (Ht & _ & _ & Hsz).
  exact (conj Ht Hsz).
Defined.

(** ** Where the tallies come from *)

Section Accounting.

Context `{FloatStr}.

Lemma reachable_ind (P : MetricsCollector -> Prop) :
  (forall t0 : Q, P (init t0)) ->
  (forall (s : MetricsCollector) (op : Op), reachable s -> P s -> P (step s op)) ->
  forall s : MetricsCollector, reachable s -> P s.
Proof.
  intros Hinit Hstep s (t0 & ops & ->).
  induction ops as [|op ops IH] using rev_ind; [apply Hinit|].
  rewrite run_snoc. apply Hstep; [|exact IH].
  apply reachable_run, reachable_init.
Qed.

Lemma errors_within_failures (s : MetricsCollector) :
  reachable s ->
  error_total s <= _failure_count s /\ _timeout_count s <= _failure_count s.
Proof.
  revert s. apply reachable_ind.
  - intros t0. rewrite error_total_init. cbn. lia.
  - intros s op _ [He Ht].
    destruct op as [now ep me sc ttft ttct cl st rid
                   |now ep sc ttft ttct tc rid
                   |now et em ep
                   |now]; cbn [step].
    + change (error_total (record_request s now ep me sc ttft ttct cl st rid))
        with (error_total s).
      cbn [record_request _failure_count _timeout_count].
      destruct st, (is_success_status sc); lia.
    + change (error_total (record_stream_completion s now ep sc ttft ttct tc rid))
        with (error_total s).
      cbn [record_stream_completion _failure_count _timeout_count].
      destruct (bool_decide _), (is_success_status sc); cbn [andb negb]; lia.
    + rewrite error_total_record_error.
      cbn [record_error _failure_count _timeout_count].
      destruct (String.eqb et "timeout"); lia.
    + split; [reflexivity|]. cbn. lia.
Qed.

End Accounting.

(** X5: in every reachable collector, success count plus failure count is the
    number of non-stream request records, plus the number of distinct request
    ids of completed streams, plus the number of stored errors; and the
    failure count is at least the number of stored errors. *)
Theorem tallies_accounted_for `{FloatStr} (s : MetricsCollector) :
  reachable s ->
  _success_count s + _failure_count s
  = Z.of_nat (length (_non_sse_requests s))
    + Z.of_nat (size (_sse_request_ids s)) + error_total s /\
  error_total s <= _failure_count s.
Proof.
  intros Hs. split.
  - apply (hist_tally s (reachable_history s Hs)).
  - apply (errors_within_failures s Hs).
Qed.

Lemma tallies_accounted_for_witness :
  _success_count collector_busy + _failure_count collector_busy
  = Z.of_nat (length (_non_sse_requests collector_busy))
    + Z.of_nat (size (_sse_request_ids collector_busy))
    + error_total collector_busy.
Proof.
  exact (proj1 (@tallies_accounted_for str_integral collector_busy
                  collector_busy_reachable)).
Defined.

(** X6: in every reachable collector the timeout counter is the number of errors
    stored under the key "timeout" (0 when the key is absent) and never
    exceeds the failure count; and the error summary has no entry with a count
    below 1. *)
Theorem timeout_count_matches_summary `{FloatStr} (s : MetricsCollector) :
  reachable s ->
  _timeout_count s = default 0 (get_error_summary s !! "timeout") /\
  _timeout_count s <= _failure_count s /\
  (forall (k : string) (n : Z), get_error_summary s !! k = Some n -> 1 <= n).
Proof.
  intros Hs. pose proof (reachable_history s Hs) as Hh.
  split; [apply (hist_timeout s Hh)|].
  split; [apply (errors_within_failures s Hs)|].
  intros k n. rewrite error_summary_lookup.
  destruct (_errors s !! k) as [l|] eqn:E; [|discriminate].
  cbn [fmap option_fmap option_map]. intros [= <-].
  pose proof (hist_errors s Hh k l E) as Hl.
  destruct l; [congruence|]. cbn [length]. lia.
Qed.

Lemma timeout_count_matches_summary_witness :
  _timeout_count collector_busy
  = default 0 (get_error_summary collector_busy !! "timeout") /\
  _timeout_count collector_busy <= _failure_count collector_busy.
Proof.
  destruct (@timeout_count_matches_summary str_integral collector_busy
              collector_busy_reachable) as (H1 & H2 & _).
  exact (conj H1 H2).
Defined.

(** ** The success rate and the snapshot *)

Lemma success_ratio_bounds (a t : Z) :
  0 <= a <= t -> 0 < t ->
  (0 <= inject_Z a / inject_Z t)%Q /\ (inject_Z a / inject_Z t <= 1)%Q.
Proof.
  intros Ha Ht.
  assert (Hpos : (0 < inject_Z t)%Q).
  { change 0%Q with (inject_Z 0). rewrite <- Zlt_Qlt. exact Ht. }
  split.
  - apply Qle_shift_div_l; [exact Hpos|]. rewrite Qmult_0_l.
    change 0%Q with (inject_Z 0). rewrite <- Zle_Qle. lia.
  - apply Qle_shift_div_r; [exact Hpos|]. rewrite Qmult_1_l.
    rewrite <- Zle_Qle. lia.
Qed.

(** X7: in every reachable collector [get_success_rate] returns a value between
    0 and 1. *)
Theorem success_rate_in_unit_interval `{FloatStr} (s : MetricsCollector) :
  reachable s ->
  exists rate : Q,
    get_success_rate s = Ok rate /\ (0 <= rate)%Q /\ (rate <= 1)%Q.
Proof.
  intros Hs.
  destruct (reachable_inv s Hs) as [_ _ _ _ _ _ Hsucc Hfail _ _].
  unfold get_success_rate.
  destruct (Z.eqb_spec (_success_count s + _failure_count s) 0) as [E|E].
  - exists 0%Q. split; [reflexivity|]. split; [apply Qle_refl|discriminate].
  - rewrite truediv_nonzero by (apply inject_Z_nonzero, E).
    eexists. split; [reflexivity|]. apply success_ratio_bounds; lia.
Qed.

Lemma success_rate_in_unit_interval_witness :
  exists rate : Q,
    get_success_rate collector_busy = Ok rate /\
    (0 <= rate)%Q /\ (rate <= 1)%Q.
Proof.
  exact (@success_rate_in_unit_interval str_integral collector_busy
           collector_busy_reachable).
Defined.

(** X8: the [success_rate] property of the snapshot returned by
    [get_session_metrics] is the collector's own [get_success_rate]. *)
Theorem snapshot_success_rate_agrees (s : MetricsCollector) (now : Q)
    (users : Z) :
  exists r : TestResult,
    get_session_metrics s now users = Ok r /\
    success_rate r = get_success_rate s.
Proof.
  destruct (get_session_metrics_ok s now users)
    as (r & Hr & _ & Hs & Hf & _).
  exists r. split; [exact Hr|].
  unfold success_rate, get_success_rate. rewrite Hs, Hf. reflexivity.
Qed.

(** X9: the summary line at the end of [run_basic_test] divides by
    [success_count + failure_count] without a guard: it raises
    [ZeroDivisionError] exactly when nothing has been tallied (on a new
    collector in particular), and otherwise reports 100 times the success
    rate together with the two averages of the snapshot. *)
Theorem run_basic_test_summary_spec (s : MetricsCollector) (now : Q)
    (users : Z) :
  exists r : TestResult,
    get_session_metrics s now users = Ok r /\
    (_success_count s + _failure_count s = 0 ->
     run_basic_test_summary s now users = Raise ZeroDivisionError) /\
    (_success_count s + _failure_count s <> 0 ->
     exists rate : Q,
       get_success_rate s = Ok rate /\
       run_basic_test_summary s now users
       = Ok ((rate * 100)%Q, avg_ttft r, avg_ttct r)) /\
    (forall t0 : Q,
       run_basic_test_summary (init t0) now users = Raise ZeroDivisionError).
Proof.
  destruct (get_session_metrics_ok s now users)
    as (r & Hr & _ & Hs & Hf & _).
  exists r. split; [exact Hr|].
  unfold run_basic_test_summary. rewrite Hr. cbn [mbind result_bind].
  rewrite Hs, Hf. split; [|split].
  - intros E. rewrite E. reflexivity.
  - intros E. unfold get_success_rate.
    destruct (Z.eqb_spec (_success_count s + _failure_count s) 0); [lia|].
    rewrite truediv_nonzero by (apply inject_Z_nonzero, E).
    eexists. split; reflexivity.
  - intros t0. reflexivity.
Qed.

Lemma run_basic_test_summary_spec_witness :
  exists (r : TestResult) (rate : Q),
    get_session_metrics collector_busy 20 5 = Ok r /\
    get_success_rate collector_busy = Ok rate /\
    run_basic_test_summary collector_busy 20 5
    = Ok ((rate * 100)%Q, avg_ttft r, avg_ttct r).
Proof.
  destruct (run_basic_test_summary_spec collector_busy 20 5)
    as (r & Hr & _ & Hpos & _).
  destruct Hpos as (rate & Hrate & Hsum); [vm_compute; discriminate|].
  exists r, rate. auto.
Defined.

(** ** What the recent windows hold *)

(** X10: in every reachable collector the request-timestamp window holds the
    timestamps of the last 1000 records of the full request history, in
    order (all of them while there are at most 1000). *)
Theorem request_times_are_latest `{FloatStr} (s : MetricsCollector) :
  reachable s ->
  items (_request_times s) = last_n 1000 (rq_timestamp <$> _requests s) /\
  ((length (_requests s) <= 1000)%nat ->
   items (_request_times s) = rq_timestamp <$> _requests s).
Proof.
  intros Hs. pose proof (hist_times s (reachable_history s Hs)) as Ht.
  split; [exact Ht|].
  intros Hlen. rewrite Ht. apply last_n_all. rewrite length_fmap. exact Hlen.
Qed.

Lemma request_times_are_latest_witness :
  items (_request_times collector_busy)
  = rq_timestamp <$> _requests collector_busy.
Proof.
  apply (@request_times_are_latest str_integral collector_busy
           collector_busy_reachable).
  vm_compute. lia.
Defined.

(** X11: after any trace from a new collector, the recent TTCT window holds the
    last 100 TTCT samples recorded since the last reset, by [record_request]
    and [record_stream_completion] alike, and the recent TTFT window the last
    100 TTFT samples (a [record_request] without [ttft] contributes none). *)
Theorem latency_windows_are_latest `{FloatStr} (t0 : Q) (ops : list Op) :
  items (_recent_ttcts (run (init t0) ops))
  = last_n 100 (flat_map op_ttct_samples (current_session ops)) /\
  items (_recent_ttfts (run (init t0) ops))
  = last_n 100 (flat_map op_ttft_samples (current_session ops)).
Proof.
  induction ops as [|op ops IH] using rev_ind; [split; reflexivity|].
  destruct IH as [IHc IHf].
  assert (Hc : collector_inv (run (init t0) ops)) by apply run_inv, init_inv.
  rewrite run_snoc, current_session_snoc.
  destruct op as [now ep me sc ttft ttct cl st rid
                 |now ep sc ttft ttct tc rid
                 |now et em ep
                 |now]; cbn [is_reset step].
  - rewrite !flat_map_app. cbn [flat_map op_ttct_samples op_ttft_samples app].
    cbn [record_request _recent_ttcts _recent_ttfts]. split.
    + rewrite <- (inv_ttcts_cap _ Hc). apply deque_append_last_n.
      rewrite (inv_ttcts_cap _ Hc). exact IHc.
    + destruct ttft as [t|].
      * rewrite <- (inv_ttfts_cap _ Hc). apply deque_append_last_n.
        rewrite (inv_ttfts_cap _ Hc). exact IHf.
      * rewrite app_nil_r. exact IHf.
  - rewrite !flat_map_app. cbn [flat_map op_ttct_samples op_ttft_samples app].
    cbn [record_stream_completion _recent_ttcts _recent_ttfts]. split.
    + rewrite <- (inv_ttcts_cap _ Hc). apply deque_append_last_n.
      rewrite (inv_ttcts_cap _ Hc). exact IHc.
    + rewrite <- (inv_ttfts_cap _ Hc). apply deque_append_last_n.
      rewrite (inv_ttfts_cap _ Hc). exact IHf.
  - rewrite !flat_map_app. cbn [flat_map op_ttct_samples op_ttft_samples app].
    rewrite !app_nil_r. split; assumption.
  - split; reflexivity.
Qed.

(** ** Latency fields of the snapshot *)

Lemma get_session_metrics_latency (s : MetricsCollector) (now : Q) (users : Z) :
  exists (ttft_stats ttct_stats : gmap string Q) (r : TestResult),
    get_recent_latencies s = Ok (ttft_stats, ttct_stats) /\
    get_session_metrics s now users = Ok r /\
    (avg_ttft r = ttft_stats !! "avg" /\ p50_ttft r = ttft_stats !! "median" /\
     p90_ttft r = ttft_stats !! "p90" /\ p95_ttft r = ttft_stats !! "p95") /\
    (avg_ttct r = ttct_stats !! "avg" /\ p50_ttct r = ttct_stats !! "median" /\
     p90_ttct r = ttct_stats !! "p90" /\ p95_ttct r = ttct_stats !! "p95").
Proof.
  destruct (get_recent_latencies_ok s) as (m1 & m2 & E & _).
  exists m1, m2. unfold get_session_metrics. rewrite E.
  cbn [mbind result_bind].
  destruct (Qgt_bool _ 0) eqn:G.
  - apply Qgt_bool_true in G. rewrite truediv_nonzero.
    + eexists. split; [reflexivity|]. split; [reflexivity|].
      cbn. repeat split; reflexivity.
    + intros Hz. rewrite Hz in G. exact (Qlt_irrefl _ G).
  - eexists. split; [reflexivity|]. split; [reflexivity|].
    cbn. repeat split; reflexivity.
Qed.

(** X12: the four TTFT fields of the snapshot are all absent when the recent TTFT
    window is empty, and otherwise hold the mean, median, 90th and 95th
    percentile of its samples; likewise the four TTCT fields for the recent
    TTCT window. *)
Theorem snapshot_latency_fields (s : MetricsCollector) (now : Q) (users : Z) :
  exists r : TestResult,
    get_session_metrics s now users = Ok r /\
    (items (_recent_ttfts s) = [] ->
     avg_ttft r = None /\ p50_ttft r = None /\
     p90_ttft r = None /\ p95_ttft r = None) /\
    (items (_recent_ttfts s) <> [] ->
     avg_ttft r = Some (np_mean (items (_recent_ttfts s))) /\
     p50_ttft r = Some (np_median (items (_recent_ttfts s))) /\
     p90_ttft r = Some (np_percentile (items (_recent_ttfts s)) 90) /\
     p95_ttft r = Some (np_percentile (items (_recent_ttfts s)) 95)) /\
    (items (_recent_ttcts s) = [] ->
     avg_ttct r = None /\ p50_ttct r = None /\
     p90_ttct r = None /\ p95_ttct r = None) /\
    (items (_recent_ttcts s) <> [] ->
     avg_ttct r = Some (np_mean (items (_recent_ttcts s))) /\
     p50_ttct r = Some (np_median (items (_recent_ttcts s))) /\
     p90_ttct r = Some (np_percentile (items (_recent_ttcts s)) 90) /\
     p95_ttct r = Some (np_percentile (items (_recent_ttcts s)) 95)).
Proof.
  destruct (get_session_metrics_latency s now users)
    as (m1 & m2 & r & E & Hr & (Ha1 & Hb1 & Hc1 & Hd1) & (Ha2 & Hb2 & Hc2 & Hd2)).
  destruct (get_recent_latencies_ok s)
    as (m1' & m2' & E' & Hn1 & Hn2 & Hs1 & Hs2).
  rewrite E in E'. injection E' as <- <-.
  exists r. split; [exact Hr|].
  rewrite Ha1, Hb1, Hc1, Hd1, Ha2, Hb2, Hc2, Hd2.
  split; [|split; [|split]].
  - intros Hempty. rewrite (Hn1 Hempty). repeat split; apply lookup_empty.
  - intros Hne.
    destruct (stats_of_lookup _ _ (Hs1 Hne)) as (H1 & H2 & H3 & H4 & _).
    auto.
  - intros Hempty. rewrite (Hn2 Hempty). repeat split; apply lookup_empty.
  - intros Hne.
    destruct (stats_of_lookup _ _ (Hs2 Hne)) as (H1 & H2 & H3 & H4 & _).
    auto.
Qed.

Lemma snapshot_latency_fields_witness :
  exists r : TestResult,
    get_session_metrics collector_busy 20 5 = Ok r /\
    avg_ttft r = Some (np_mean (items (_recent_ttfts collector_busy))) /\
    p95_ttct r = Some (np_percentile (items (_recent_ttcts collector_busy)) 95).
Proof.
  destruct (snapshot_latency_fields collector_busy 20 5)
    as (r & Hr & _ & Hf & _ & Hc).
  exists r. split; [exact Hr|]. split.
  - apply Hf. vm_compute. discriminate.
  - apply Hc. vm_compute. discriminate.
Defined.

(** ** Bounds on the current throughput *)

Lemma current_rps_spec_cases (s : MetricsCollector) (now : Q) :
  get_current_rps s now = Ok 0%Q \/
  exists oldest : Q,
    is_minimum (trailing_minute now (items (_request_times s))) oldest /\
    (0 < now - oldest)%Q /\
    get_current_rps s now
    = Ok (inject_Z
            (Z.of_nat (length (trailing_minute now (items (_request_times s)))))
          / (now - oldest))%Q.
Proof.
  unfold get_current_rps.
  destruct (length (items (_request_times s)) <? 2)%nat; [left; reflexivity|].
  change (filter (fun t => Qle_bool (now - t) 60 = true)
            (items (_request_times s)))
    with (trailing_minute now (items (_request_times s))).
  destruct (trailing_minute now (items (_request_times s))) as [|t0 rest] eqn:E;
    [left; reflexivity|].
  destruct (py_min_spec (t0 :: rest)) as (oldest & Hmin & Hspec); [congruence|].
  rewrite Hmin. cbn [mbind result_bind].
  destruct (Qle_bool (now - oldest) 0) eqn:G; [left; reflexivity|].
  right. exists oldest. split; [exact Hspec|].
  assert (Hpos : (0 < now - oldest)%Q).
  { apply Qnot_le_lt. intros Hle. apply Qle_bool_iff in Hle. congruence. }
  split; [exact Hpos|].
  apply truediv_nonzero. intros Hz. rewrite Hz in Hpos.
  exact (Qlt_irrefl _ Hpos).
Qed.

(** X13: whatever [get_current_rps] returns is either 0.0 or at least one sixtieth
    of the number of windowed timestamps within the trailing 60 seconds, and
    that number is then at least 1: the span it divides by is positive and at
    most 60. *)
Theorem current_rps_zero_or_bounded (s : MetricsCollector) (now rps : Q) :
  get_current_rps s now = Ok rps ->
  let recent := trailing_minute now (items (_request_times s)) in
  rps = 0%Q \/
  ((1 <= length recent)%nat /\
   (inject_Z (Z.of_nat (length recent)) / 60 <= rps)%Q /\ (0 < rps)%Q).
Proof.
  intros Hrps recent.
  destruct (current_rps_spec_cases s now) as [H0|Hpos].
  - left. rewrite H0 in Hrps. congruence.
  - right. destruct Hpos as (oldest & Hold & Hspan & Hval).
    rewrite Hval in Hrps. injection Hrps as <-. fold recent in Hold, Hval |- *.
    destruct Hold as [Hin Hall].
    assert (Hlen : (1 <= length recent)%nat).
    { destruct recent; [destruct Hin|cbn [length]; lia]. }
    assert (H60 : (now - oldest <= 60)%Q).
    { apply (trailing_minute_In now (items (_request_times s)) oldest), Hin. }
    assert (Hn : (1 <= inject_Z (Z.of_nat (length recent)))%Q).
    { change 1%Q with (inject_Z 1). rewrite <- Zle_Qle. lia. }
    split; [exact Hlen|]. split.
    + apply Qle_shift_div_l; [exact Hspan|].
      unfold Qdiv. change (/ 60)%Q with (1 # 60)%Q. nra.
    + apply Qlt_shift_div_l; [exact Hspan|]. lra.
Qed.

Lemma current_rps_zero_or_bounded_witness :
  (1 # 10)%Q = 0%Q \/
  ((1 <= length (trailing_minute 110 (items (_request_times sparse_requests))))%nat /\
   (inject_Z
      (Z.of_nat
         (length (trailing_minute 110 (items (_request_times sparse_requests)))))
    / 60 <= 1 # 10)%Q /\
   (0 < 1 # 10)%Q).
Proof.
  apply (current_rps_zero_or_bounded sparse_requests 110 (1 # 10)).
  vm_compute. reflexivity.
Defined.

(** ** Synthetic request ids *)

(** X14: two [record_stream_completion] calls without a request id, for the same
    endpoint and at the same clock reading, get the same synthetic id: the
    second one is not tallied, whatever its status code, although its tokens
    are added and its record is stored. *)
Theorem synthetic_id_collision `{FloatStr} (s : MetricsCollector) (now : Q)
    (endpoint : string) (sc1 sc2 : Z) (f1 f2 c1 c2 : Q) (k1 k2 : Z) :
  let s1 := record_stream_completion s now endpoint sc1 f1 c1 k1 None in
  let s2 := record_stream_completion s1 now endpoint sc2 f2 c2 k2 None in
  _success_count s2 = _success_count s1 /\
  _failure_count s2 = _failure_count s1 /\
  _sse_request_ids s2 = _sse_request_ids s1 /\
  _total_tokens s2 = _total_tokens s1 + k2 /\
  length (_stream_metrics s2) = S (length (_stream_metrics s1)).
Proof.
  intros s1 s2.
  assert (Hin : request_id_or_default endpoint now None ∈ _sse_request_ids s1).
  { unfold s1.
    destruct (decide (request_id_or_default endpoint now None
                      ∈ _sse_request_ids s)) as [Hs|Hs].
    - destruct (stream_completion_seen s now endpoint sc1 f1 c1 k1 None Hs)
        as (_ & _ & ->). exact Hs.
    - destruct (stream_completion_unseen s now endpoint sc1 f1 c1 k1 None Hs)
        as (_ & _ & ->).
      rewrite elem_of_union, elem_of_singleton. left. reflexivity. }
  destruct (stream_completion_seen s1 now endpoint sc2 f2 c2 k2 None Hin)
    as (Hs & Hf & Hseen).
  split; [exact Hs|]. split; [exact Hf|]. split; [exact Hseen|].
  split; [reflexivity|].
  unfold s2. cbn [record_stream_completion _stream_metrics].
  rewrite length_app. cbn [length]. lia.
Qed.

(** ** Growth within a session *)

Section Growth.

Context `{FloatStr}.

Lemma grows_refl (s : MetricsCollector) : grows s s.
Proof. unfold grows. repeat split; try lia; try reflexivity. Qed.

Lemma grows_trans (s1 s2 s3 : MetricsCollector) :
  grows s1 s2 -> grows s2 s3 -> grows s1 s3.
Proof.
  intros (A1 & A2 & A3 & A4 & A5 & A6) (B1 & B2 & B3 & B4 & B5 & B6).
  unfold grows. repeat split; try lia.
  - intros x Hx. apply B5, A5, Hx.
  - intros k. specialize (A6 k). specialize (B6 k). lia.
Qed.

Lemma step_grows (s : MetricsCollector) (op : Op) :
  is_reset op = false -> grows s (step s op).
Proof.
  intros Hop.
  destruct op as [now ep me sc ttft ttct cl st rid
                 |now ep sc ttft ttct tc rid
                 |now et em ep
                 |now]; try discriminate; cbn [step]; unfold grows.
  - cbn [record_request _success_count _failure_count _timeout_count
         _total_request_count _sse_request_ids].
    repeat split; try reflexivity;
      try (destruct st, (is_success_status sc); lia); try lia.
  - cbn [record_stream_completion _success_count _failure_count _timeout_count
         _total_request_count _sse_request_ids].
    repeat split; try reflexivity;
      try (destruct (bool_decide _), (is_success_status sc);
           cbn [andb negb]; lia).
    destruct (bool_decide _); [|reflexivity].
    intros x Hx. rewrite elem_of_union. right. exact Hx.
  - cbn [record_error _success_count _failure_count _timeout_count
         _total_request_count _sse_request_ids].
    repeat split; try reflexivity; try lia.
    + destruct (String.eqb et "timeout"); lia.
    + intros k. destruct (decide (k = et)) as [->|Hk].
      * rewrite error_summary_record_error. cbn [from_option]. unfold id. lia.
      * rewrite !error_summary_lookup. cbn [record_error _errors].
        rewrite errors_append_lookup_ne by exact Hk. reflexivity.
Qed.

End Growth.

(** X15: between two resets nothing is taken back: along any sequence of
    operations without [reset] the success, failure, timeout and
    total-request counters and every count of the error summary never
    decrease, and no request id leaves the seen-set. *)
Theorem session_only_grows `{FloatStr} (s : MetricsCollector) (ops : list Op) :
  existsb is_reset ops = false ->
  _success_count s <= _success_count (run s ops) /\
  _failure_count s <= _failure_count (run s ops) /\
  _timeout_count s <= _timeout_count (run s ops) /\
  _total_request_count s <= _total_request_count (run s ops) /\
  _sse_request_ids s ⊆ _sse_request_ids (run s ops) /\
  (forall k : string,
     default 0 (get_error_summary s !! k)
     <= default 0 (get_error_summary (run s ops) !! k)).
Proof.
  revert s. induction ops as [|op ops IH]; intros s Hre.
  - apply grows_refl.
  - cbn [existsb] in Hre. apply orb_false_iff in Hre. destruct Hre as [Hop Hre].
    rewrite run_cons.
    apply (grows_trans s (step s op) (run (step s op) ops)).
    + apply step_grows, Hop.
    + apply IH, Hre.
Qed.

Lemma session_only_grows_witness :
  _failure_count (init 0) <= _failure_count collector_busy /\
  _sse_request_ids (init 0) ⊆ _sse_request_ids collector_busy.
Proof.
  destruct (@session_only_grows str_integral (init 0) session_busy eq_refl)
    as (_ & Hf & _ & _ & Hseen & _).
  exact (conj Hf Hseen).
Defined.

(** ** The overall charts *)

Lemma py_max_1_spec (d : Q) :
  (1 <= py_max_1 d)%Q /\
  ((1 < d)%Q -> py_max_1 d = d) /\ ((d <= 1)%Q -> py_max_1 d = 1%Q).
Proof.
  unfold py_max_1. destruct (Qgt_bool d 1) eqn:G.
  - apply Qgt_bool_true in G. split; [apply Qlt_le_weak, G|].
    split; [reflexivity|]. intros Hle. exfalso. exact (Qlt_not_le _ _ G Hle).
  - apply Qgt_bool_false in G. split; [apply Qle_refl|].
    split; [|reflexivity]. intros Hlt. exfalso. exact (Qlt_not_le _ _ Hlt G).
Qed.

Lemma get_success_rate_returns (s : MetricsCollector) :
  exists rate : Q, get_success_rate s = Ok rate.
Proof.
  unfold get_success_rate.
  destruct (Z.eqb_spec (_success_count s + _failure_count s) 0) as [E|E].
  - exists 0%Q. reflexivity.
  - rewrite truediv_nonzero by (apply inject_Z_nonzero, E).
    eexists. reflexivity.
Qed.

(** X16: in every reachable collector the computation behind the overall charts
    raises nothing.  It is skipped when no [record_request] call is stored,
    even if stream completions or errors are.  Otherwise the two pie values
    are the numbers of stream and non-stream request records, which add up to
    the total-request counter, and the average-TPS value is the token total
    divided by the session duration when that exceeds one second and the
    plain token total otherwise. *)
Theorem overall_summary_values_spec `{FloatStr} (s : MetricsCollector)
    (now : Q) :
  reachable s ->
  (_total_request_count s = 0 -> overall_summary_values s now = Ok None) /\
  (_total_request_count s <> 0 ->
   exists (rate avg_ttft_value avg_ttct_value : Q),
     get_success_rate s = Ok rate /\
     overall_summary_values s now
     = Ok (Some
             (Z.of_nat (length (omap sse_request (_sse_requests s))),
              Z.of_nat (length (_non_sse_requests s)),
              [inject_Z (_total_request_count s);
               (rate * 100)%Q;
               (now - _session_start_time s)%Q;
               (inject_Z (_total_tokens s)
                / py_max_1 (now - _session_start_time s))%Q;
               avg_ttft_value;
               avg_ttct_value])) /\
     Z.of_nat (length (omap sse_request (_sse_requests s)))
     + Z.of_nat (length (_non_sse_requests s)) = _total_request_count s) /\
  ((1 < now - _session_start_time s)%Q ->
   py_max_1 (now - _session_start_time s) = (now - _session_start_time s)%Q) /\
  ((now - _session_start_time s <= 1)%Q ->
   py_max_1 (now - _session_start_time s) = 1%Q).
Proof.
  intros Hs.
  destruct (reachable_history s Hs) as [_ Ht Hn Hsr _ _ _ _ _ _ _ _ _].
  pose proof (filter_stream_split (_requests s)) as Hsplit.
  split; [|split; [|apply py_max_1_spec]]; unfold overall_summary_values.
  - intros H0. rewrite Ht in H0.
    destruct (_requests s); [reflexivity|cbn [length] in H0; lia].
  - intros H0.
    destruct (_requests s) as [|d l] eqn:E; [cbn in Ht; lia|].
    rewrite <- E in *. clear E d l.
    destruct (get_recent_latencies_ok s) as (m1 & m2 & El & _).
    rewrite El. cbn [mbind result_bind].
    destruct (get_success_rate_returns s) as (rate & Hrate).
    rewrite Hrate. cbn [mbind result_bind].
    destruct (py_max_1_spec (now - _session_start_time s)) as (Hge & _).
    rewrite truediv_nonzero.
    + exists rate, (default 0%Q (m1 !! "avg")), (default 0%Q (m2 !! "avg")).
      split; [reflexivity|].
      pose proof Hsplit as Hsplit'. rewrite <- Hsr, <- Hn in Hsplit'. split.
      * cbn [mbind result_bind]. rewrite Hsr, Hn.
        replace (Z.of_nat (length (_requests s))
                 - Z.of_nat
                     (length
                        (filter (fun req => rq_is_stream req = true)
                           (_requests s))))
          with (Z.of_nat
                  (length
                     (filter (fun d => rq_is_stream d = false) (_requests s))))
          by lia.
        reflexivity.
      * lia.
    + intros Hz. rewrite Hz in Hge. revert Hge. apply Qlt_not_le. reflexivity.
Qed.

Lemma overall_summary_values_spec_witness :
  Z.of_nat (length (omap sse_request (_sse_requests collector_busy)))
  + Z.of_nat (length (_non_sse_requests collector_busy))
  = _total_request_count collector_busy.
Proof.
  destruct (@overall_summary_values_spec str_integral collector_busy 20
              collector_busy_reachable) as (_ & Hnz & _).
  destruct Hnz as (rate & a & b & _ & _ & Hsum); [vm_compute; discriminate|].
  exact Hsum.
Defined.
